(** * Okta social login: identity resolution ([pkg/login/social/okta_oauth.go])

    A shallow embedding of [SocialOkta.UserInfo] and its helpers
    ([GetGroups], [extractAPI], [extractEmail], [extractRole]).

    - Go structs are records, one module per struct so that the field
      names of the source can be kept.
    - [[]byte] is [list byte], Go [string] is [string]; a nil slice and an
      empty slice are both the empty list (the code only ever takes their
      length or ranges over them).
    - The outbound HTTP traffic and the logger are the only effects; they
      are threaded through a state monad [St] whose state records, in
      order, every outbound request and every line that the functions of
      this file write to the log.
    - The libraries the code calls (go-jose, encoding/json) and the helpers
      of the package that live in other files ([HttpGet],
      [searchJSONForAttr]) are the fields of the class [Collaborators];
      every general theorem holds for all of its instances. *)

From Stdlib Require Import Strings.String Strings.Ascii Strings.Byte.
From stdpp Require Import base option list strings gmap.

Local Open Scope string_scope.
Local Open Scope list_scope.

Abbreviation bytes := (list byte).

(** ** Data model *)

(** [interface{}] as returned by [oauth2.Token.Extra]: nil, a string, or a
    value of some other dynamic type (JSON numbers, booleans, objects). *)
Inductive iface : Type :=
  | INil
  | IString (s : string)
  | IFloat64 (mantissa exponent : Z)
  | IInt64 (z : Z)
  | IBool (b : bool)
  | IOther.

Module Token.
Record t := mk {
  AccessToken : string;
  raw : gmap string iface
}.

(** [token.Extra(key)] for a token whose raw data is the JSON object of
    the token response: the value stored under [key]; nil when there is no
    such entry, and nil too when the entry holds null. *)
Definition Extra (tok : t) (key : string) : iface :=
  default INil (raw tok !! key).
End Token.

Module OktaClaims.
Record t := mk {
  ID : string;
  Email : string;
  PreferredUsername : string;
  Name : string
}.

Definition zero : t := mk "" "" "" "".
End OktaClaims.

Module OktaUserInfoJson.
Record t := mk {
  Name : string;
  DisplayName : string;
  Login : string;
  Username : string;
  Email : string;
  Upn : string;
  Attributes : gmap string (list string);
  Groups : list string;
  rawJSON : bytes
}.

(** [var data OktaUserInfoJson] *)
Definition zero : t := mk "" "" "" "" "" "" ∅ [] [].

Definition set_rawJSON (d : t) (b : bytes) : t :=
  mk (Name d) (DisplayName d) (Login d) (Username d) (Email d) (Upn d)
     (Attributes d) (Groups d) b.
End OktaUserInfoJson.

(** Modelled from the spec: [BasicUserInfo] (declared in social.go), the
    ResolvedIdentity of the design, with the fields that [UserInfo] fills
    in. *)
Module BasicUserInfo.
Record t := mk {
  Id : string;
  Name : string;
  Email : string;
  Login : string;
  Role : string;
  Groups : list string
}.
End BasicUserInfo.

Module SocialOkta.
Record t := mk {
  apiUrl : string;
  allowedDomains : list string;
  allowedGroups : list string;
  allowSignup : bool;
  roleAttributePath : string
}.
End SocialOkta.

(** The errors [UserInfo] returns, with their messages. *)
Inductive error : Type :=
  | ErrNoIdToken
  | ErrParsingIdToken
  | ErrGettingClaims
  | ErrNoEmail.

Definition Error (e : error) : string :=
  match e with
  | ErrNoIdToken => "No id_token found"
  | ErrParsingIdToken => "Error parsing id token"
  | ErrGettingClaims => "Error getting claims from id token"
  | ErrNoEmail => "Error getting user info: No email found in access token"
  end.

(** What a call of [UserInfo] ends in: an info and a nil error, a nil info and an error, or a
    run-time panic. *)
Inductive outcome (A : Type) : Type :=
  | Ok (a : A)
  | Err (e : error)
  | Panic (reason : string).
Arguments Ok {A} a.
Arguments Err {A} e.
Arguments Panic {A} reason.

(** ** Effects *)

Inductive level : Type := LvlDebug | LvlError.

Record LogEntry := mkLog { lvl : level; msg : string }.

Record Effects := mkEffects {
  outbound : list string;   (* URLs requested so far, oldest first *)
  logged : list LogEntry    (* log lines written so far, oldest first *)
}.

Definition no_effects : Effects := mkEffects [] [].

Definition St (A : Type) : Type := Effects → A * Effects.

#[global] Instance St_ret : MRet St := λ A a e, (a, e).
#[global] Instance St_bind : MBind St :=
  λ A B f m e, let '(a, e') := m e in f a e'.

Definition log (l : level) (m : string) : St unit :=
  λ e, (tt, mkEffects (outbound e) (logged e ++ [mkLog l m])).

Definition s_log_Debug := log LvlDebug.
Definition s_log_Error := log LvlError.

(** ** HTTP *)

(** [HttpGetResponse] of social/common.go; only [Body] is read here. *)
Record HttpGetResponse := mkResp { Body : bytes }.

Inductive HttpResult : Type :=
  | HttpOk (response : HttpGetResponse)
  | HttpErr (err : string).

(** What stands behind the [http.Client]: the answer to a GET may depend on
    the URL and on every request sent before it. *)
Record Client := mkClient {
  roundTrip : list string → string → HttpResult
}.

(** Modelled from the spec: [HttpGet] (social/common.go) is one HTTP GET to
    the given URL; it yields the response body or an error. *)
Definition HttpGet (client : Client) (url : string) : St HttpResult :=
  λ e, (roundTrip client (outbound e) url,
        mkEffects (outbound e ++ [url]) (logged e)).

(** ** Collaborators *)

Class Collaborators := {
  (** [jwt.JSONWebToken] *)
  JSONWebToken : Type;
  (** [jwt.ParseSigned]; [None] is a non-nil [err]. *)
  jwt_ParseSigned : string → option JSONWebToken;
  (** [parsedToken.UnsafeClaimsWithoutVerification] into a zero
      [claims]; [None] is a non-nil [err]. *)
  UnsafeClaimsWithoutVerification : JSONWebToken → option OktaClaims.t;
  (** The decoder behind [json.Unmarshal(raw, data)]: the struct it leaves
      behind, and [true] when it returns a non-nil [err]. *)
  decode_OktaUserInfoJson :
    bytes → OktaUserInfoJson.t → OktaUserInfoJson.t * bool;
  (** [s.searchJSONForAttr] of social.go, as the string it returns. It is a
      method of [s] and may write to the log of [s]; such lines are not
      recorded in [logged]. *)
  searchJSONForAttr : string → bytes → string
}.

Definition is_ok {A : Type} (r : outcome A) : bool :=
  match r with
  | Ok _ => true
  | _ => false
  end.

Definition is_string (v : iface) : bool :=
  match v with
  | IString _ => true
  | _ => false
  end.

Section Okta.
Context `{Collaborators}.

(** [json.Unmarshal(raw, data)] for a [data] of type [OktaUserInfoJson]:
    encoding/json sets exported fields only, so [rawJSON] keeps its value. *)
Definition json_Unmarshal (raw : bytes) (data : OktaUserInfoJson.t)
  : OktaUserInfoJson.t * bool :=
  let '(d, err) := decode_OktaUserInfoJson raw data in
  (OktaUserInfoJson.set_rawJSON d (OktaUserInfoJson.rawJSON data), err).

(** [extractAPI(data, client) bool], a method of [SocialOkta]; the struct
    behind the pointer [data] is returned next to the flag. *)
Definition extractAPI (s : SocialOkta.t) (data : OktaUserInfoJson.t)
    (client : Client) : St (OktaUserInfoJson.t * bool) :=
  r ← HttpGet client (SocialOkta.apiUrl s);
  match r with
  | HttpErr err =>
      _ ← s_log_Debug "Error getting user info response";
      mret (data, false)
  | HttpOk rawUserInfoResponse =>
      let data := OktaUserInfoJson.set_rawJSON data (Body rawUserInfoResponse) in
      let '(data, err) := json_Unmarshal (OktaUserInfoJson.rawJSON data) data in
      if err then
        _ ← s_log_Error "Error decoding user info response";
        let data := OktaUserInfoJson.set_rawJSON data [] in
        mret (data, false)
      else
        _ ← s_log_Debug "Received user info response";
        mret (data, true)
  end.

(** [extractEmail() string], a method of [OktaClaims]. *)
Definition extractEmail (claims : OktaClaims.t) : string :=
  if String.eqb (OktaClaims.Email claims) "" then
    if negb (String.eqb (OktaClaims.PreferredUsername claims) "") then
      OktaClaims.PreferredUsername claims
    else OktaClaims.Email claims
  else OktaClaims.Email claims.

(** [extractRole(data) string], a method of [SocialOkta]. *)
Definition extractRole (s : SocialOkta.t) (data : OktaUserInfoJson.t) : string :=
  if negb (String.eqb (SocialOkta.roleAttributePath s) "") then
    let role := searchJSONForAttr (SocialOkta.roleAttributePath s)
                                  (OktaUserInfoJson.rawJSON data) in
    if negb (String.eqb role "") then role else ""
  else "".

(** [GetGroups(client) []string], a method of [SocialOkta]. *)
Definition GetGroups (s : SocialOkta.t) (client : Client) : St (list string) :=
  let data := OktaUserInfoJson.zero in
  let groups := [] in
  '(data, _) ← extractAPI s data client;
  let groups :=
    if Nat.ltb 0 (length (OktaUserInfoJson.Groups data))
    then OktaUserInfoJson.Groups data else groups in
  mret groups.

(** [IsSignupAllowed() bool], a method of [SocialOkta]. *)
Definition IsSignupAllowed (s : SocialOkta.t) : bool := SocialOkta.allowSignup s.

(** [UserInfo(client, token)], a method of [SocialOkta] returning a pointer
    to a [BasicUserInfo] and an [error]. *)
Definition UserInfo (s : SocialOkta.t) (client : Client) (token : Token.t)
  : St (outcome BasicUserInfo.t) :=
  let idToken := Token.Extra token "id_token" in
  match idToken with
  | INil => mret (Err ErrNoIdToken)
  | IString idTokenString =>
      match jwt_ParseSigned idTokenString with
      | None => mret (Err ErrParsingIdToken)
      | Some parsedToken =>
          match UnsafeClaimsWithoutVerification parsedToken with
          | None => mret (Err ErrGettingClaims)
          | Some claims =>
              let email := extractEmail claims in
              if String.eqb email "" then mret (Err ErrNoEmail)
              else
                '(data, _) ← extractAPI s OktaUserInfoJson.zero client;
                let role := extractRole s data in
                groups ← GetGroups s client;
                mret (Ok (BasicUserInfo.mk (OktaClaims.ID claims)
                            (OktaClaims.Name claims) email email role groups))
          end
      end
  | _ => mret (Panic "interface conversion: interface {} is not string")
  end.

(** ** What a resolution computes

    Closed forms of the steps above, used to state the properties. *)

(** What [extractAPI] leaves in the struct and returns, by the answer of
    the endpoint. *)
Definition fetched (s : SocialOkta.t) (data : OktaUserInfoJson.t)
    (client : Client) (e : Effects) : OktaUserInfoJson.t * bool :=
  match roundTrip client (outbound e) (SocialOkta.apiUrl s) with
  | HttpErr _ => (data, false)
  | HttpOk resp =>
      let r := json_Unmarshal (Body resp)
                 (OktaUserInfoJson.set_rawJSON data (Body resp)) in
      if r.2 then (OktaUserInfoJson.set_rawJSON r.1 [], false) else (r.1, true)
  end.

(** The identity assembled from the claims, the document of [UserInfo]'s
    own fetch and the document of the fetch inside [GetGroups]. *)
Definition assembled (s : SocialOkta.t) (claims : OktaClaims.t)
    (data groupsData : OktaUserInfoJson.t) : BasicUserInfo.t :=
  BasicUserInfo.mk (OktaClaims.ID claims) (OktaClaims.Name claims)
    (extractEmail claims) (extractEmail claims)
    (extractRole s data) (OktaUserInfoJson.Groups groupsData).

(** The claims of the identity token, when it is there, is a string, and
    parses. *)
Definition token_claims (token : Token.t) : option OktaClaims.t :=
  match Token.Extra token "id_token" with
  | IString str => parsed ← jwt_ParseSigned str; UnsafeClaimsWithoutVerification parsed
  | _ => None
  end.

End Okta.

(** ** JSON documents

    The part of JSON (RFC 8259) that the reference collaborators below
    work on: a document is parsed into a [JSON.value]; text that is not one
    JSON value, optionally surrounded by white space, is malformed. Escapes
    of the form [\uXXXX] are decoded for code points below 128 only; a
    document with any other such escape is treated as malformed. *)
Module JSON.

#[warnings="-register-all"]
Inductive value : Type :=
  | Null
  | Bool (b : bool)
  | Number (literal : string)
  | Str (s : string)
  | Array (elements : list value)
  | Object (members : list (string * value)).

Definition quote : ascii := "034"%char.
Definition backslash : ascii := "092"%char.

Definition is_ws (c : ascii) : bool :=
  match nat_of_ascii c with
  | 32 | 9 | 10 | 13 => true
  | _ => false
  end.

Definition is_digit (c : ascii) : bool :=
  let n := nat_of_ascii c in Nat.leb 48 n && Nat.leb n 57.

Fixpoint skip_ws (s : string) : string :=
  match s with
  | String c r => if is_ws c then skip_ws r else s
  | EmptyString => s
  end.

(** The longest prefix of digits, and what follows it. *)
Fixpoint span_digits (s : string) : string * string :=
  match s with
  | String c r =>
      if is_digit c then let '(d, r') := span_digits r in (String c d, r')
      else (EmptyString, s)
  | EmptyString => (EmptyString, s)
  end.

Definition hex_digit (c : ascii) : option nat :=
  let n := nat_of_ascii c in
  if Nat.leb 48 n && Nat.leb n 57 then Some (n - 48)%nat
  else if Nat.leb 65 n && Nat.leb n 70 then Some (n - 55)%nat
  else if Nat.leb 97 n && Nat.leb n 102 then Some (n - 87)%nat
  else None.

Definition unescape (c : ascii) : option ascii :=
  match nat_of_ascii c with
  | 34 => Some quote
  | 92 => Some backslash
  | 47 => Some "/"%char
  | 98 => Some "008"%char
  | 102 => Some "012"%char
  | 110 => Some "010"%char
  | 114 => Some "013"%char
  | 116 => Some "009"%char
  | _ => None
  end.

(** The characters of a string literal up to its closing quote (the opening
    quote has been read), and what follows the literal. *)
Fixpoint parse_chars (s : string) : option (string * string) :=
  match s with
  | EmptyString => None
  | String c r =>
      if Ascii.eqb c quote then Some (EmptyString, r)
      else if Ascii.eqb c backslash then
        match r with
        | String "u" (String h1 (String h2 (String h3 (String h4 r')))) =>
            a ← hex_digit h1; b ← hex_digit h2;
            c' ← hex_digit h3; d ← hex_digit h4;
            let code := (((a * 16 + b) * 16 + c') * 16 + d)%nat in
            if Nat.ltb code 128 then
              '(t, rest) ← parse_chars r';
              Some (String (ascii_of_nat code) t, rest)
            else None
        | String e r' =>
            e' ← unescape e;
            '(t, rest) ← parse_chars r';
            Some (String e' t, rest)
        | EmptyString => None
        end
      else if Nat.ltb (nat_of_ascii c) 32 then None
      else
        '(t, rest) ← parse_chars r;
        Some (String c t, rest)
  end.

(** [strip p s]: [s] without its prefix [p]. *)
Fixpoint strip (p s : string) : option string :=
  match p, s with
  | EmptyString, _ => Some s
  | String a p', String b s' => if Ascii.eqb a b then strip p' s' else None
  | String _ _, EmptyString => None
  end.

(** A number literal: an optional minus sign, an integer part without
    leading zero, an optional fraction and an optional exponent. *)
Definition parse_number (s : string) : option (string * string) :=
  let '(sign, s1) :=
    match s with
    | String "-" r => ("-", r)
    | _ => (EmptyString, s)
    end in
  let '(int, s2) := span_digits s1 in
  match int with
  | EmptyString => None
  | String "0" (String _ _) => None
  | _ =>
      frac ← match s2 with
             | String "." r =>
                 let '(f, r') := span_digits r in
                 match f with
                 | EmptyString => None
                 | _ => Some ("." +:+ f, r')
                 end
             | _ => Some (EmptyString, s2)
             end;
      ex ← match frac.2 with
           | String e r =>
               if Ascii.eqb e "e" || Ascii.eqb e "E" then
                 let '(sg, r1) :=
                   match r with
                   | String "+" r1 => ("+", r1)
                   | String "-" r1 => ("-", r1)
                   | _ => (EmptyString, r)
                   end in
                 let '(d, r2) := span_digits r1 in
                 match d with
                 | EmptyString => None
                 | _ => Some (String e (sg +:+ d), r2)
                 end
               else Some (EmptyString, frac.2)
           | EmptyString => Some (EmptyString, frac.2)
           end;
      Some (sign +:+ int +:+ frac.1 +:+ ex.1, ex.2)
  end.

(** Recursive descent; [fuel] bounds the depth of the calls. *)
Fixpoint parse_value (fuel : nat) (s : string) : option (value * string) :=
  match fuel with
  | 0 => None
  | S fuel =>
      match skip_ws s with
      | String "{" r =>
          match skip_ws r with
          | String "}" r' => Some (Object [], r')
          | r' => parse_members fuel r' []
          end
      | String "[" r =>
          match skip_ws r with
          | String "]" r' => Some (Array [], r')
          | r' => parse_elements fuel r' []
          end
      | String "t" _ as s' => r ← strip "true" s'; Some (Bool true, r)
      | String "f" _ as s' => r ← strip "false" s'; Some (Bool false, r)
      | String "n" _ as s' => r ← strip "null" s'; Some (Null, r)
      | String c r as s' =>
          if Ascii.eqb c quote then
            '(t, rest) ← parse_chars r; Some (Str t, rest)
          else
            '(n, rest) ← parse_number s'; Some (Number n, rest)
      | EmptyString => None
      end
  end
with parse_elements (fuel : nat) (s : string) (acc : list value)
  : option (value * string) :=
  match fuel with
  | 0 => None
  | S fuel =>
      '(v, r) ← parse_value fuel s;
      match skip_ws r with
      | String "," r' => parse_elements fuel r' (v :: acc)
      | String "]" r' => Some (Array (rev (v :: acc)), r')
      | _ => None
      end
  end
with parse_members (fuel : nat) (s : string) (acc : list (string * value))
  : option (value * string) :=
  match fuel with
  | 0 => None
  | S fuel =>
      match skip_ws s with
      | String c r =>
          if Ascii.eqb c quote then
            '(k, r1) ← parse_chars r;
            match skip_ws r1 with
            | String ":" r2 =>
                '(v, r3) ← parse_value fuel r2;
                match skip_ws r3 with
                | String "," r4 => parse_members fuel r4 ((k, v) :: acc)
                | String "}" r4 => Some (Object (rev ((k, v) :: acc)), r4)
                | _ => None
                end
            | _ => None
            end
          else None
      | EmptyString => None
      end
  end.

(** A whole document: one value and nothing after it but white space. *)
Definition parse (doc : string) : option value :=
  '(v, r) ← parse_value (2 * String.length doc + 2)%nat doc;
  match skip_ws r with
  | EmptyString => Some v
  | _ => None
  end.

Definition parse_bytes (doc : bytes) : option value :=
  parse (string_of_list_byte doc).

End JSON.

(** ** Attribute paths *)

(** [searchJSONForAttr] lives in social.go; the design describes it as the
    AttributePathEvaluator. [Evaluate path document] is the empty string
    when [path] is empty, without a look at the document; the empty string
    when the path does not resolve (missing key, type mismatch, malformed
    document); otherwise the string the path selects. A path is a dotted
    sequence of keys; a key applied to a collection selects its first
    matching element. *)
Module AttributePathEvaluator.

Fixpoint split_dots (path : string) : list string :=
  match path with
  | EmptyString => [EmptyString]
  | String c r =>
      if Ascii.eqb c "." then EmptyString :: split_dots r
      else match split_dots r with
           | k :: ks => String c k :: ks
           | [] => [String c EmptyString]
           end
  end.

Definition has_key (k : string) (members : list (string * JSON.value)) : bool :=
  existsb (λ m, String.eqb k m.1) members.

(** Modelled from the spec: the string that a dotted sequence of keys
    selects in [v]; a key applied to a collection selects the first element
    in which the selection succeeds. In an object with a repeated key the
    last member counts. *)
Fixpoint resolve (keys : list string) (v : JSON.value) {struct v}
  : option string :=
  match v with
  | JSON.Str s =>
      match keys with
      | [] => Some s
      | _ :: _ => None
      end
  | JSON.Array elements =>
      (fix first (l : list JSON.value) : option string :=
         match l with
         | [] => None
         | e :: l' =>
             match resolve keys e with
             | Some s => Some s
             | None => first l'
             end
         end) elements
  | JSON.Object members =>
      match keys with
      | [] => None
      | k :: ks =>
          (fix find (l : list (string * JSON.value)) : option string :=
             match l with
             | [] => None
             | (k', v') :: l' =>
                 if String.eqb k k' && negb (has_key k l')
                 then resolve ks v' else find l'
             end) members
      end
  | _ => None
  end.

(** Modelled from the spec: [searchJSONForAttr] (social.go), the contract
    [Evaluate(path, document)] of the AttributePathEvaluator. *)
Definition Evaluate (path : string) (document : bytes) : string :=
  if String.eqb path "" then ""
  else
    match JSON.parse_bytes document with
    | None => ""
    | Some v => default "" (resolve (split_dots path) v)
    end.

(** The path selects no string in the document. *)
Definition unresolved (path : string) (document : bytes) : Prop :=
  ∀ v, JSON.parse_bytes document = Some v → resolve (split_dots path) v = None.

End AttributePathEvaluator.

(** ** Reference collaborators

    One instance of [Collaborators], on which the code can be run on
    concrete tokens and responses. The decoders follow the documentation
    of encoding/json: malformed text is rejected before anything is
    stored; in well-formed text a value that does not fit its field is
    skipped, the remaining members are still decoded, and an error is
    returned at the end; [null] leaves a string as it is and empties a
    slice or a map; keys match the field tags without regard to (ASCII)
    case; unknown keys are ignored. *)
Module Reference.

Definition lower_ascii (c : ascii) : ascii :=
  let n := nat_of_ascii c in
  if Nat.leb 65 n && Nat.leb n 90 then ascii_of_nat (n + 32) else c.

Fixpoint lower (s : string) : string :=
  match s with
  | EmptyString => EmptyString
  | String c r => String (lower_ascii c) (lower r)
  end.

Definition decode_string (v : JSON.value) (old : string) : string * bool :=
  match v with
  | JSON.Str s => (s, false)
  | JSON.Null => (old, false)
  | _ => (old, true)
  end.

Definition decode_element (v : JSON.value) : string * bool :=
  decode_string v "".

Definition decode_strings (v : JSON.value) (old : list string)
  : list string * bool :=
  match v with
  | JSON.Array elements =>
      (map (λ e, (decode_element e).1) elements,
       existsb (λ e, (decode_element e).2) elements)
  | JSON.Null => ([], false)
  | _ => (old, true)
  end.

Definition decode_map (v : JSON.value) (old : gmap string (list string))
  : gmap string (list string) * bool :=
  match v with
  | JSON.Object members =>
      fold_left (λ acc m,
                   let '(l, e) := decode_strings m.2 [] in
                   (<[m.1 := l]> acc.1, acc.2 || e))
                members (old, false)
  | JSON.Null => (∅, false)
  | _ => (old, true)
  end.

(** One member of the document stored into the struct. *)
Definition store_OktaUserInfoJson (d : OktaUserInfoJson.t) (key : string)
    (v : JSON.value) : OktaUserInfoJson.t * bool :=
  let k := lower key in
  let 'OktaUserInfoJson.mk name display login username email upn attrs groups raw := d in
  if String.eqb k "name" then
    let '(x, e) := decode_string v name in
    (OktaUserInfoJson.mk x display login username email upn attrs groups raw, e)
  else if String.eqb k "display_name" then
    let '(x, e) := decode_string v display in
    (OktaUserInfoJson.mk name x login username email upn attrs groups raw, e)
  else if String.eqb k "login" then
    let '(x, e) := decode_string v login in
    (OktaUserInfoJson.mk name display x username email upn attrs groups raw, e)
  else if String.eqb k "username" then
    let '(x, e) := decode_string v username in
    (OktaUserInfoJson.mk name display login x email upn attrs groups raw, e)
  else if String.eqb k "email" then
    let '(x, e) := decode_string v email in
    (OktaUserInfoJson.mk name display login username x upn attrs groups raw, e)
  else if String.eqb k "upn" then
    let '(x, e) := decode_string v upn in
    (OktaUserInfoJson.mk name display login username email x attrs groups raw, e)
  else if String.eqb k "attributes" then
    let '(x, e) := decode_map v attrs in
    (OktaUserInfoJson.mk name display login username email upn x groups raw, e)
  else if String.eqb k "groups" then
    let '(x, e) := decode_strings v groups in
    (OktaUserInfoJson.mk name display login username email upn attrs x raw, e)
  else (d, false).

Definition store_OktaClaims (c : OktaClaims.t) (key : string)
    (v : JSON.value) : OktaClaims.t * bool :=
  let k := lower key in
  let 'OktaClaims.mk sub email preferred name := c in
  if String.eqb k "sub" then
    let '(x, e) := decode_string v sub in (OktaClaims.mk x email preferred name, e)
  else if String.eqb k "email" then
    let '(x, e) := decode_string v email in (OktaClaims.mk sub x preferred name, e)
  else if String.eqb k "preferred_username" then
    let '(x, e) := decode_string v preferred in (OktaClaims.mk sub email x name, e)
  else if String.eqb k "name" then
    let '(x, e) := decode_string v name in (OktaClaims.mk sub email preferred x, e)
  else (c, false).

(** [json.Unmarshal] into a struct whose members are stored by [store]. *)
Definition unmarshal_struct {T : Type} (store : T → string → JSON.value → T * bool)
    (raw : bytes) (data : T) : T * bool :=
  match JSON.parse_bytes raw with
  | None => (data, true)
  | Some JSON.Null => (data, false)
  | Some (JSON.Object members) =>
      fold_left (λ acc m,
                   let '(d, e) := store acc.1 m.1 m.2 in (d, acc.2 || e))
                members (data, false)
  | Some _ => (data, true)
  end.

(** *** Compact JWS *)

Definition base64url_value (c : ascii) : option nat :=
  let n := nat_of_ascii c in
  if Nat.leb 65 n && Nat.leb n 90 then Some (n - 65)%nat
  else if Nat.leb 97 n && Nat.leb n 122 then Some (n - 71)%nat
  else if Nat.leb 48 n && Nat.leb n 57 then Some (n + 4)%nat
  else if Nat.eqb n 45 then Some 62%nat
  else if Nat.eqb n 95 then Some 63%nat
  else None.

Fixpoint sextets (s : string) : option (list nat) :=
  match s with
  | EmptyString => Some []
  | String c r => v ← base64url_value c; l ← sextets r; Some (v :: l)
  end.

Fixpoint octets (l : list nat) : option (list nat) :=
  match l with
  | a :: b :: c :: d :: r =>
      t ← octets r;
      Some ((a * 4 + b / 16) :: (b `mod` 16 * 16 + c / 4) :: (c `mod` 4 * 64 + d) :: t)%nat
  | [a; b; c] => Some [(a * 4 + b / 16)%nat; (b `mod` 16 * 16 + c / 4)%nat]
  | [a; b] => Some [(a * 4 + b / 16)%nat]
  | [_] => None
  | [] => Some []
  end.

(** [base64.RawURLEncoding.DecodeString] *)
Definition base64url_decode (s : string) : option bytes :=
  l ← sextets s; o ← octets l; Some (map (λ n, byte_of_ascii (ascii_of_nat n)) o).

Fixpoint remove_ws (s : string) : string :=
  match s with
  | EmptyString => EmptyString
  | String c r => if JSON.is_ws c then remove_ws r else String c (remove_ws r)
  end.

(** A parsed token: the bytes of its payload, not verified. *)
Record CompactJWS := mkJWS { unverifiedPayload : bytes }.

(** [jwt.ParseSigned] on the compact serialization: three base64url parts
    separated by dots, the first of which holds a JSON object. The JSON
    serialization of a JWS is not covered and counts as malformed. *)
Definition ParseSigned (s : string) : option CompactJWS :=
  match AttributePathEvaluator.split_dots (remove_ws s) with
  | [p0; p1; p2] =>
      rawProtected ← base64url_decode p0;
      payload ← base64url_decode p1;
      _ ← base64url_decode p2;
      match JSON.parse_bytes rawProtected with
      | Some (JSON.Object _) => Some (mkJWS payload)
      | _ => None
      end
  | _ => None
  end.

(** [UnsafeClaimsWithoutVerification]: the payload decoded into the claims. *)
Definition UnsafeClaims (t : CompactJWS) : option OktaClaims.t :=
  let '(c, err) := unmarshal_struct store_OktaClaims (unverifiedPayload t) OktaClaims.zero in
  if err then None else Some c.

#[export] Instance collaborators : Collaborators := {|
  JSONWebToken := CompactJWS;
  jwt_ParseSigned := ParseSigned;
  UnsafeClaimsWithoutVerification := UnsafeClaims;
  decode_OktaUserInfoJson := unmarshal_struct store_OktaUserInfoJson;
  searchJSONForAttr := AttributePathEvaluator.Evaluate
|}.

(** Documents are written with an apostrophe where JSON has a double
    quote. *)
Fixpoint json_text (s : string) : string :=
  match s with
  | EmptyString => EmptyString
  | String c r =>
      String (if Ascii.eqb c "'" then JSON.quote else c) (json_text r)
  end.

Definition json_bytes (s : string) : bytes := list_byte_of_string (json_text s).

(** A client whose every request is answered by [r]. *)
Definition always (r : HttpResult) : Client := mkClient (λ _ _, r).

(** A client that answers the n-th request with the n-th element of [rs],
    and fails once they are used up. *)
Definition scripted (rs : list HttpResult) : Client :=
  mkClient (λ sent _, default (HttpErr "connection refused") (rs !! length sent)).

Definition token_with (idToken : iface) : Token.t :=
  Token.mk "access" {[ "id_token" := idToken ]}.

End Reference.

(** * Concrete runs

    The values on which the code is run below: a configuration, three
    identity tokens in compact form (header [{"alg":"RS256"}], signature
    [sig]) and a few answers of the user-info endpoint. *)
Module Scenario.
Import Reference.

Definition okta : SocialOkta.t :=
  SocialOkta.mk "https://example.okta.com/oauth2/v1/userinfo" [] [] true "attrs.role".

(** Claims [{"sub":"123","email":"a@b.com","name":"A B"}]. *)
Definition idTokenAB : string :=
  "eyJhbGciOiJSUzI1NiJ9.eyJzdWIiOiIxMjMiLCJlbWFpbCI6ImFAYi5jb20iLCJuYW1lIjoiQSBCIn0.c2ln".

(** Claims [{"sub":"7","email":"","preferred_username":"u@example.com"}]. *)
Definition idTokenPreferred : string :=
  "eyJhbGciOiJSUzI1NiJ9.eyJzdWIiOiI3IiwiZW1haWwiOiIiLCJwcmVmZXJyZWRfdXNlcm5hbWUiOiJ1QGV4YW1wbGUuY29tIn0.c2ln".

(** Claims [{"sub":"7","name":"Nobody"}]. *)
Definition idTokenNobody : string :=
  "eyJhbGciOiJSUzI1NiJ9.eyJzdWIiOiI3IiwibmFtZSI6Ik5vYm9keSJ9.c2ln".

Definition claimsAB : OktaClaims.t := OktaClaims.mk "123" "a@b.com" "" "A B".

Definition userinfoBody : bytes :=
  json_bytes "{'groups':['eng'], 'attrs':{'role':'editor'}}".

(** Well-formed, but [name] is not a string: decoding fails after [groups]
    has been stored. *)
Definition mistypedBody : bytes := json_bytes "{'groups':['eng'],'name':5}".

(** Not JSON at all. *)
Definition htmlBody : bytes := list_byte_of_string "<html>Bad Gateway</html>".

Definition identityAB : BasicUserInfo.t :=
  BasicUserInfo.mk "123" "A B" "a@b.com" "a@b.com" "editor" ["eng"].

(** [UserInfo], [extractAPI] and the claims of a token on the reference
    collaborators. *)
Definition Resolve := @UserInfo collaborators.
Definition Fetch := @extractAPI collaborators.
Definition Claims := @token_claims collaborators.

End Scenario.

(** ** Endpoints and log lines *)

(** An endpoint whose answer to a request does not depend on the requests
    sent before it. *)
Definition stateless (client : Client) : Prop :=
  ∀ sent sent' url, roundTrip client sent url = roundTrip client sent' url.

Section Lines.
Context `{Collaborators}.

(** The line that [extractAPI] writes to the log, by what happened to its
    request. *)
Definition fetch_line (s : SocialOkta.t) (data : OktaUserInfoJson.t)
    (client : Client) (e : Effects) : LogEntry :=
  match roundTrip client (outbound e) (SocialOkta.apiUrl s) with
  | HttpErr _ => mkLog LvlDebug "Error getting user info response"
  | HttpOk resp =>
      if (json_Unmarshal (Body resp)
            (OktaUserInfoJson.set_rawJSON data (Body resp))).2
      then mkLog LvlError "Error decoding user info response"
      else mkLog LvlDebug "Received user info response"
  end.

End Lines.

(** * Search results ([public/app/features/search/components/SearchResults.tsx])

    The component is a function from its props to a tree of React
    elements. The tree is kept as the component returns it: the components
    it mentions ([Icon], [SearchResultsCheckbox], [SearchResultsItem]) are
    nodes with their props, not expanded. An arrow function passed as
    [onClick] is kept as the call it makes. What the callbacks of the props
    and the [toggle] of a section do is not in this file; a call of one of
    them is an event, and a run of [toggleFolderExpand] is the sequence of
    its events. *)
Module SearchResults.

(** A prop of type [any], as far as [typeof] tells. *)
Inductive JsAny : Type := JsFunction | JsUndefined | JsOther.

Definition is_function (v : JsAny) : bool :=
  match v with
  | JsFunction => true
  | _ => false
  end.

(** How the promise returned by [section.toggle(section)] ends. *)
Inductive Settlement : Type := Fulfilled | Rejected | Pending.

(** An optional boolean used as a condition: [undefined] counts as false. *)
Definition truthy (b : option bool) : bool := default false b.

(** An optional string used as a condition: [undefined] and the empty
    string count as false. *)
Definition truthy_string (s : option string) : bool :=
  match s with
  | Some (String _ _) => true
  | _ => false
  end.

(** [DashboardSection] is declared in ../types; these are the fields the
    component reads. [Item] stands for [DashboardSectionItem]. The field
    [toggle] holds, when the section has a [toggle], the end of the promise
    that [section.toggle(section)] returns. *)
Module DashboardSection.
Record t (Item : Type) := mk {
  id : Z;
  title : string;
  icon : option string;
  url : option string;
  expanded : option bool;
  hideHeader : option bool;
  checked : option bool;
  items : list Item;
  toggle : option Settlement
}.
Arguments mk {Item}.
Arguments id {Item}.
Arguments title {Item}.
Arguments icon {Item}.
Arguments url {Item}.
Arguments expanded {Item}.
Arguments hideHeader {Item}.
Arguments checked {Item}.
Arguments items {Item}.
Arguments toggle {Item}.
End DashboardSection.

(** The props. [onToggleSelection] is typed as a function; the component
    does not inspect it. *)
Module Props.
Record t (Item : Type) := mk {
  results : option (list (DashboardSection.t Item));
  onSelectionChanged : JsAny;
  onTagSelected : JsAny;
  onFolderExpanding : JsAny;
  onToggleSelection : JsAny;
  editable : bool
}.
Arguments mk {Item}.
Arguments results {Item}.
Arguments onSelectionChanged {Item}.
Arguments onTagSelected {Item}.
Arguments onFolderExpanding {Item}.
Arguments onToggleSelection {Item}.
Arguments editable {Item}.
End Props.

(** The calls that a run of [toggleFolderExpand] makes. *)
Inductive Event : Type :=
  | FolderExpanding           (* onFolderExpanding() *)
  | Toggle (id : Z)           (* section.toggle(section) *)
  | SelectionChanged.         (* onSelectionChanged() *)

(** A class name: plain names, or the class that [css] makes of a style. *)
Inductive ClassName : Type :=
  | Class (names : string)
  | Css (style : string).

Section Component.
Context {Item : Type}.

(** The arrow functions of the component, by the call they make. *)
Inductive Handler : Type :=
  | CallToggleFolderExpand (section : DashboardSection.t Item)
  | CallOnToggleSelection (section : DashboardSection.t Item).

#[warnings="-register-all"]
Inductive Element : Type :=
  | Div (key : option Z) (className : string) (onClick : option Handler)
        (children : list Element)
  | Em (className : string) (text : string)
  | Span (className : string) (text : string)
  | Anchor (href : string) (className : string) (children : list Element)
  | Fragment (children : list Element)
  | Icon (className : option ClassName) (name : option string)
  | SearchResultsCheckbox (editable : bool) (checked : option bool)
        (onClick : Handler)
  | SearchResultsItem (key : Z) (item : Item) (editable : bool)
        (onToggleSelection : JsAny) (onTagSelected : JsAny)
  | Nothing                      (* a false, undefined or empty child *)
  | Elements (children : list Element).

(** [cx(names, { selected: checked })] *)
Definition cx (names : string) (selected : option bool) : string :=
  if truthy selected then names +:+ " selected" else names.

Variable item_id : Item → Z.

(** [toggleFolderExpand], with the callbacks of the props it closes over. *)
Definition toggleFolderExpand (props : Props.t Item)
    (section : DashboardSection.t Item) : list Event :=
  match DashboardSection.toggle section with
  | Some promise =>
      (if negb (truthy (DashboardSection.expanded section))
          && is_function (Props.onFolderExpanding props)
       then [FolderExpanding] else [])
      ++ [Toggle (DashboardSection.id section)]
      ++ match promise with
         | Fulfilled =>
             if is_function (Props.onSelectionChanged props)
             then [SelectionChanged] else []
         | _ => []
         end
  | None => []
  end.

(** The element that [results.map] makes of one section. *)
Definition section_element (props : Props.t Item)
    (section : DashboardSection.t Item) : Element :=
  Div (Some (DashboardSection.id section)) "search-section" None
    [ if negb (truthy (DashboardSection.hideHeader section)) then
        Div None
          (cx "search-section__header pointer" (DashboardSection.checked section))
          (Some (CallToggleFolderExpand section))
          [ SearchResultsCheckbox (Props.editable props)
              (DashboardSection.checked section) (CallOnToggleSelection section);
            Icon (Some (Css "padding: 5px 0; width: 43px;"))
              (DashboardSection.icon section);
            Span "search-section__header__text" (DashboardSection.title section);
            (if truthy_string (DashboardSection.url section) then
               Anchor (default "" (DashboardSection.url section))
                 "search-section__header__link" [Icon None (Some "cog")]
             else Nothing);
            Icon (Some (Class "search-section__header__toggle"))
              (Some (if truthy (DashboardSection.expanded section)
                     then "angle-down" else "angle-right")) ]
      else Div None "search-section__header" None [];
      if truthy (DashboardSection.expanded section) then
        Elements (map (λ item, SearchResultsItem (item_id item) item
                                 (Props.editable props)
                                 (Props.onToggleSelection props)
                                 (Props.onTagSelected props))
                    (DashboardSection.items section))
      else Nothing ].

(** The component. *)
Definition SearchResults (props : Props.t Item) : Element :=
  match Props.results props with
  | None | Some [] =>
      Div None "search-results" None [Em "muted" "No dashboards found."]
  | Some results => Fragment (map (section_element props) results)
  end.

(** ** What a tree shows *)

Definition key (e : Element) : option Z :=
  match e with
  | Div k _ _ _ => k
  | SearchResultsItem k _ _ _ _ => Some k
  | _ => None
  end.

(** The keys of the items in the tree, in document order. *)
Fixpoint shown_items (e : Element) : list Z :=
  match e with
  | Div _ _ _ cs | Anchor _ _ cs | Fragment cs | Elements cs =>
      concat (map shown_items cs)
  | SearchResultsItem k _ _ _ _ => [k]
  | _ => []
  end.

(** The [onClick] handlers in the tree, in document order. *)
Fixpoint click_handlers (e : Element) : list Handler :=
  match e with
  | Div _ _ h cs => from_option (λ x, [x]) [] h ++ concat (map click_handlers cs)
  | Anchor _ _ cs | Fragment cs | Elements cs => concat (map click_handlers cs)
  | SearchResultsCheckbox _ _ h => [h]
  | _ => []
  end.

(** The targets of the links in the tree, in document order. *)
Fixpoint links (e : Element) : list string :=
  match e with
  | Anchor href _ cs => href :: concat (map links cs)
  | Div _ _ _ cs | Fragment cs | Elements cs => concat (map links cs)
  | _ => []
  end.

(** What the items in the tree are handed, in document order: key,
    [editable], [onToggleSelection] and [onTagSelected]. *)
Fixpoint item_props (e : Element) : list (Z * bool * JsAny * JsAny) :=
  match e with
  | Div _ _ _ cs | Anchor _ _ cs | Fragment cs | Elements cs =>
      concat (map item_props cs)
  | SearchResultsItem k _ editable select tag => [(k, editable, select, tag)]
  | _ => []
  end.

(** The texts in the tree, in document order. *)
Fixpoint texts (e : Element) : list string :=
  match e with
  | Em _ t | Span _ t => [t]
  | Div _ _ _ cs | Anchor _ _ cs | Fragment cs | Elements cs =>
      concat (map texts cs)
  | _ => []
  end.

End Component.

End SearchResults.

(** Three sections to run the component on; an item is known by its id. *)
Module SearchScenario.
Import SearchResults.

(** Expanded, with two items. *)
Definition general : DashboardSection.t Z :=
  DashboardSection.mk 0 "General" (Some "folder-open") None (Some true) None None
    [11; 12]%Z (Some Fulfilled).

(** Collapsed and checked, with a url and one item. *)
Definition team : DashboardSection.t Z :=
  DashboardSection.mk 7 "Team" (Some "folder") (Some "/dashboards/f/team")
    (Some false) None (Some true) [71]%Z (Some Fulfilled).

(** Expanded, without header and without [toggle]. *)
Definition recent : DashboardSection.t Z :=
  DashboardSection.mk (-1) "Recent" None None (Some true) (Some true) None
    [12]%Z None.

Definition props : Props.t Z :=
  Props.mk (Some [general; team; recent]) JsFunction JsUndefined JsFunction
    JsFunction true.

Definition no_results : Props.t Z :=
  Props.mk None JsFunction JsUndefined JsFunction JsFunction true.

Definition render : Props.t Z → Element := SearchResults.SearchResults (λ item, item).

End SearchScenario.

(** * Properties *)

Section Facts.
Context `{Collaborators}.

Ltac run := unfold mbind, St_bind, mret, St_ret, s_log_Debug, s_log_Error, log, HttpGet; simpl.

(** ** One fetch *)

Lemma extractAPI_value s data client e :
  (extractAPI s data client e).1 = fetched s data client e.
Proof.
  unfold extractAPI, fetched. run.
  destruct (roundTrip client (outbound e) (SocialOkta.apiUrl s)) as [resp|err]; simpl.
  - destruct (json_Unmarshal _ _) as [d [|]]; reflexivity.
  - reflexivity.
Qed.

Lemma extractAPI_outbound s data client e :
  outbound (extractAPI s data client e).2 = outbound e ++ [SocialOkta.apiUrl s].
Proof.
  unfold extractAPI. run.
  destruct (roundTrip client (outbound e) (SocialOkta.apiUrl s)) as [resp|err]; simpl.
  - destruct (json_Unmarshal _ _) as [d [|]]; reflexivity.
  - reflexivity.
Qed.

Lemma json_Unmarshal_rawJSON raw data :
  OktaUserInfoJson.rawJSON (json_Unmarshal raw data).1 = OktaUserInfoJson.rawJSON data.
Proof.
  unfold json_Unmarshal. destruct (decode_OktaUserInfoJson raw data). reflexivity.
Qed.

(** The raw bytes after a fetch: the body when it was received and decoded,
    nothing when decoding failed, the old bytes when nothing was received. *)
Lemma fetched_rawJSON s data client e :
  OktaUserInfoJson.rawJSON (fetched s data client e).1 =
    match roundTrip client (outbound e) (SocialOkta.apiUrl s) with
    | HttpErr _ => OktaUserInfoJson.rawJSON data
    | HttpOk resp =>
        if (json_Unmarshal (Body resp)
              (OktaUserInfoJson.set_rawJSON data (Body resp))).2
        then [] else Body resp
    end.
Proof.
  unfold fetched.
  destruct (roundTrip client (outbound e) (SocialOkta.apiUrl s)) as [resp|err]; simpl.
  - pose proof (json_Unmarshal_rawJSON (Body resp)
                  (OktaUserInfoJson.set_rawJSON data (Body resp))) as Hraw.
    destruct (json_Unmarshal _ _) as [d [|]]; simpl in *; [reflexivity | exact Hraw].
  - reflexivity.
Qed.

Lemma fetched_failed_rawJSON s client e :
  (fetched s OktaUserInfoJson.zero client e).2 = false →
  OktaUserInfoJson.rawJSON (fetched s OktaUserInfoJson.zero client e).1 = [].
Proof.
  intros Hflag. rewrite fetched_rawJSON. unfold fetched in Hflag.
  destruct (roundTrip client (outbound e) (SocialOkta.apiUrl s)) as [resp|err]; simpl in *.
  - destruct (json_Unmarshal _ _) as [d [|]]; simpl in *; [reflexivity | discriminate].
  - reflexivity.
Qed.

(** ** Groups *)

Lemma GetGroups_value s client e :
  (GetGroups s client e).1 =
    OktaUserInfoJson.Groups (fetched s OktaUserInfoJson.zero client e).1.
Proof.
  unfold GetGroups. run.
  rewrite <- extractAPI_value.
  destruct (extractAPI s OktaUserInfoJson.zero client e) as [[d ok] e']; simpl.
  destruct (OktaUserInfoJson.Groups d); reflexivity.
Qed.

Lemma GetGroups_effects s client e :
  (GetGroups s client e).2 = (extractAPI s OktaUserInfoJson.zero client e).2.
Proof.
  unfold GetGroups. run.
  destruct (extractAPI s OktaUserInfoJson.zero client e) as [[d ok] e']; reflexivity.
Qed.

(** ** Role *)

Lemma extractRole_eq s data :
  extractRole s data =
    if String.eqb (SocialOkta.roleAttributePath s) "" then ""
    else searchJSONForAttr (SocialOkta.roleAttributePath s)
                           (OktaUserInfoJson.rawJSON data).
Proof.
  unfold extractRole.
  destruct (String.eqb (SocialOkta.roleAttributePath s) ""); simpl; [reflexivity|].
  destruct (String.eqb_spec (searchJSONForAttr (SocialOkta.roleAttributePath s)
                               (OktaUserInfoJson.rawJSON data)) "") as [->|]; reflexivity.
Qed.

(** ** Attribute paths *)

Lemma resolve_missing_key k ks members :
  AttributePathEvaluator.has_key k members = false →
  AttributePathEvaluator.resolve (k :: ks) (JSON.Object members) = None.
Proof.
  simpl. induction members as [|[k' v'] members IH]; [reflexivity|].
  unfold AttributePathEvaluator.has_key. simpl. intros Hkey.
  apply orb_false_elim in Hkey as [Hk Hrest]. rewrite Hk. simpl.
  apply IH. exact Hrest.
Qed.

Lemma Evaluate_unresolved path document :
  AttributePathEvaluator.unresolved path document →
  AttributePathEvaluator.Evaluate path document = "".
Proof.
  unfold AttributePathEvaluator.unresolved, AttributePathEvaluator.Evaluate.
  intros Hun. destruct (String.eqb path ""); [reflexivity|].
  destruct (JSON.parse_bytes document) as [v|]; [|reflexivity].
  rewrite (Hun v eq_refl). reflexivity.
Qed.

(** ** The whole resolution *)

(** Of the two documents, the identity reads the raw bytes of the first and
    the groups of the second. *)
Lemma assembled_reads s claims data data' groupsData groupsData' :
  OktaUserInfoJson.rawJSON data = OktaUserInfoJson.rawJSON data' →
  OktaUserInfoJson.Groups groupsData = OktaUserInfoJson.Groups groupsData' →
  assembled s claims data groupsData = assembled s claims data' groupsData'.
Proof.
  intros Hraw Hgroups. unfold assembled, extractRole.
  rewrite Hraw, Hgroups. reflexivity.
Qed.

Lemma UserInfo_resolved s client token e claims :
  token_claims token = Some claims →
  extractEmail claims ≠ "" →
  UserInfo s client token e =
    let first := extractAPI s OktaUserInfoJson.zero client e in
    let second := extractAPI s OktaUserInfoJson.zero client first.2 in
    (Ok (assembled s claims first.1.1 second.1.1), second.2).
Proof.
  unfold token_claims, UserInfo. intros Hclaims Hemail.
  destruct (Token.Extra token "id_token") as [|str| | | |]; try discriminate.
  destruct (jwt_ParseSigned str) as [parsed|]; [simpl in Hclaims|discriminate].
  rewrite Hclaims.
  destruct (String.eqb_spec (extractEmail claims) "") as [Heq|_]; [contradiction|].
  run.
  pose proof (GetGroups_value s client (extractAPI s OktaUserInfoJson.zero client e).2) as Hg.
  pose proof (GetGroups_effects s client (extractAPI s OktaUserInfoJson.zero client e).2) as He.
  rewrite <- extractAPI_value in Hg.
  destruct (extractAPI s OktaUserInfoJson.zero client e) as [[d ok] e1]; simpl in *.
  destruct (GetGroups s client e1) as [g e2]; simpl in *. subst.
  reflexivity.
Qed.

(** The hard stop after the token has been parsed. *)
Lemma UserInfo_no_email s client token e claims :
  token_claims token = Some claims →
  extractEmail claims = "" →
  UserInfo s client token e = (Err ErrNoEmail, e).
Proof.
  unfold token_claims, UserInfo. intros Hclaims Hemail.
  destruct (Token.Extra token "id_token") as [|str| | | |]; try discriminate.
  destruct (jwt_ParseSigned str) as [parsed|]; [simpl in Hclaims|discriminate].
  rewrite Hclaims, Hemail. reflexivity.
Qed.

(** Without usable claims nothing is fetched and no identity is returned. *)
Lemma UserInfo_rejected s client token e :
  (token_claims token = None ∨
   ∃ claims, token_claims token = Some claims ∧ extractEmail claims = "") →
  is_ok (UserInfo s client token e).1 = false ∧ (UserInfo s client token e).2 = e.
Proof.
  unfold token_claims, UserInfo.
  destruct (Token.Extra token "id_token") as [|str| | | |];
    try (intros _; split; reflexivity).
  destruct (jwt_ParseSigned str) as [parsed|]; simpl; [|intros _; split; reflexivity].
  destruct (UnsafeClaimsWithoutVerification parsed) as [claims|]; [|intros _; split; reflexivity].
  intros [Hnone|[c [Hc Hemail]]]; [discriminate|].
  injection Hc as <-. rewrite Hemail. split; reflexivity.
Qed.

(** Every successful resolution went through all of the steps. *)
Lemma UserInfo_Ok_inv s client token e u :
  (UserInfo s client token e).1 = Ok u →
  ∃ claims, token_claims token = Some claims ∧ extractEmail claims ≠ "".
Proof.
  intros Hok.
  destruct (token_claims token) as [claims|] eqn:Hclaims.
  - exists claims. split; [reflexivity|]. intros Hemail.
    destruct (UserInfo_rejected s client token e) as [Hno _].
    { right. exists claims. split; assumption. }
    rewrite Hok in Hno. discriminate.
  - destruct (UserInfo_rejected s client token e) as [Hno _]; [left; assumption|].
    rewrite Hok in Hno. discriminate.
Qed.

End Facts.

(** ** The reference collaborators at work *)

Example parse_userinfoBody :
  JSON.parse_bytes Scenario.userinfoBody =
    Some (JSON.Object
            [("groups", JSON.Array [JSON.Str "eng"]);
             ("attrs", JSON.Object [("role", JSON.Str "editor")])]).
Proof. vm_compute. reflexivity. Qed.

Example parse_htmlBody : JSON.parse_bytes Scenario.htmlBody = None.
Proof. vm_compute. reflexivity. Qed.

Example claims_of_idTokenAB :
  Scenario.Claims (Reference.token_with (IString Scenario.idTokenAB))
    = Some Scenario.claimsAB.
Proof. vm_compute. reflexivity. Qed.

Example claims_of_idTokenPreferred :
  Scenario.Claims (Reference.token_with (IString Scenario.idTokenPreferred))
    = Some (OktaClaims.mk "7" "" "u@example.com" "").
Proof. vm_compute. reflexivity. Qed.

Example resolve_idTokenPreferred :
  (Scenario.Resolve Scenario.okta (Reference.always (HttpErr "timeout"))
     (Reference.token_with (IString Scenario.idTokenPreferred)) no_effects).1
    = Ok (BasicUserInfo.mk "7" "" "u@example.com" "u@example.com" "" []).
Proof. vm_compute. reflexivity. Qed.

(** A value of the wrong type is skipped, what came before it is kept, and
    the decoder reports the error. *)
Example decode_mistypedBody :
  Reference.unmarshal_struct Reference.store_OktaUserInfoJson
    Scenario.mistypedBody OktaUserInfoJson.zero
    = (OktaUserInfoJson.mk "" "" "" "" "" "" ∅ ["eng"] [], true).
Proof. vm_compute. reflexivity. Qed.

Example first_matching_element :
  AttributePathEvaluator.Evaluate "users.role"
    (Reference.json_bytes "{'users':[{'id':1},{'role':'admin'},{'role':'viewer'}]}")
    = "admin".
Proof. vm_compute. reflexivity. Qed.

(** * The claims *)

Section Claims.
Context `{Collaborators}.

(** C1 (as amended). A resolution performs at most two outbound network
    calls, not one: a resolution that returns an identity has sent exactly
    two GET requests to [apiUrl], the first by [UserInfo]'s own call of
    [extractAPI] and the second by the call inside [GetGroups]; a
    resolution that returns no identity has sent none. *)
Theorem UserInfo_outbound_calls s client token e :
  let r := UserInfo s client token e in
  outbound r.2 =
    outbound e ++ (if is_ok r.1
                   then [SocialOkta.apiUrl s; SocialOkta.apiUrl s] else [])
  ∧ (length (outbound r.2) ≤ length (outbound e) + 2)%nat.
Proof.
  assert (outbound (UserInfo s client token e).2 =
          outbound e ++ (if is_ok (UserInfo s client token e).1
                         then [SocialOkta.apiUrl s; SocialOkta.apiUrl s] else [])) as Hout.
  { destruct (token_claims token) as [claims|] eqn:Hclaims.
    - destruct (String.eqb_spec (extractEmail claims) "") as [Hemail|Hemail].
      + destruct (UserInfo_rejected s client token e) as [Hno ->].
        { right. exists claims. split; assumption. }
        rewrite Hno, app_nil_r. reflexivity.
      + rewrite (UserInfo_resolved s client token e claims Hclaims Hemail). simpl.
        rewrite !extractAPI_outbound, <- app_assoc. reflexivity.
    - destruct (UserInfo_rejected s client token e) as [Hno ->]; [left; assumption|].
      rewrite Hno, app_nil_r. reflexivity. }
  simpl. split; [exact Hout|].
  rewrite Hout, length_app.
  destruct (is_ok (UserInfo s client token e).1); simpl; lia.
Qed.

(** C2. The email of a returned identity is never empty; and a token whose
    claims have both [email] and [preferred_username] empty makes [UserInfo]
    return the no-email error, with no identity and before anything is
    fetched. *)
Theorem UserInfo_email_never_empty s client token e :
  (∀ u, (UserInfo s client token e).1 = Ok u → BasicUserInfo.Email u ≠ "")
  ∧ (∀ claims,
       token_claims token = Some claims →
       OktaClaims.Email claims = "" →
       OktaClaims.PreferredUsername claims = "" →
       UserInfo s client token e = (Err ErrNoEmail, e)).
Proof.
  split.
  - intros u Hok.
    destruct (UserInfo_Ok_inv s client token e u Hok) as [claims [Hclaims Hemail]].
    rewrite (UserInfo_resolved s client token e claims Hclaims Hemail) in Hok.
    simpl in Hok. injection Hok as <-. exact Hemail.
  - intros claims Hclaims He Hp.
    apply (UserInfo_no_email s client token e claims Hclaims).
    unfold extractEmail. rewrite He, Hp. reflexivity.
Qed.

(** C3 (as amended). When the bytes of a user-info response are received
    but fail decoding, [rawJSON] does not keep them: [extractAPI] resets it
    to the empty byte sequence and returns false. The received bytes stay in
    [rawJSON] only when decoding succeeds. *)
Theorem extractAPI_rawJSON_after_decoding s data client e resp :
  roundTrip client (outbound e) (SocialOkta.apiUrl s) = HttpOk resp →
  let failed := (json_Unmarshal (Body resp)
                   (OktaUserInfoJson.set_rawJSON data (Body resp))).2 in
  let r := (extractAPI s data client e).1 in
  OktaUserInfoJson.rawJSON r.1 = (if failed then [] else Body resp)
  ∧ r.2 = negb failed.
Proof.
  intros Hresp. simpl. rewrite extractAPI_value. split.
  - rewrite fetched_rawJSON, Hresp. reflexivity.
  - unfold fetched. rewrite Hresp.
    destruct (json_Unmarshal _ _) as [d [|]]; reflexivity.
Qed.

(** C4 (as amended). A failed user-info fetch is never propagated outward
    and neither success flag steers the control flow: whenever the token
    claims yield a non-empty email, [UserInfo] returns an identity. The
    resolution fetches twice; the role is the empty string when the fetch
    of [UserInfo] itself fails (transport or decoding), for an attribute
    search that finds nothing in an empty document, and the groups are the
    empty sequence when the fetch inside [GetGroups] fails in transport. *)
Theorem UserInfo_absorbs_fetch_failure s client token e claims :
  token_claims token = Some claims →
  extractEmail claims ≠ "" →
  (∀ path, searchJSONForAttr path [] = "") →
  let first := extractAPI s OktaUserInfoJson.zero client e in
  let second := extractAPI s OktaUserInfoJson.zero client first.2 in
  ∃ u, UserInfo s client token e = (Ok u, second.2)
    ∧ (first.1.2 = false → BasicUserInfo.Role u = "")
    ∧ ((∃ err, roundTrip client (outbound first.2) (SocialOkta.apiUrl s) = HttpErr err) →
       BasicUserInfo.Groups u = []).
Proof.
  intros Hclaims Hemail Hmiss. simpl.
  rewrite (UserInfo_resolved s client token e claims Hclaims Hemail). simpl.
  eexists. split; [reflexivity|]. simpl. split.
  - rewrite extractAPI_value. intros Hflag.
    rewrite extractRole_eq, (fetched_failed_rawJSON s client e Hflag), Hmiss.
    destruct (String.eqb _ _); reflexivity.
  - intros [err Herr]. rewrite extractAPI_value. unfold fetched. rewrite Herr.
    reflexivity.
Qed.

(** C5. A malformed identity-token string makes [UserInfo] return the
    parse error, and nothing has been requested or logged by then. *)
Theorem UserInfo_malformed_id_token s client token e str :
  Token.Extra token "id_token" = IString str →
  jwt_ParseSigned str = None →
  UserInfo s client token e = (Err ErrParsingIdToken, e).
Proof.
  intros Hextra Hparse. unfold UserInfo. rewrite Hextra, Hparse. reflexivity.
Qed.

(** C6. The derived email is the [email] claim when that is not empty and
    the [preferred_username] claim when it is; with an empty [email] and
    the preferred username [u@example.com] it is [u@example.com]; and when
    both are empty the extractor still returns, with the empty string: it
    is [UserInfo], its caller, that refuses an empty derived email. *)
Theorem extractEmail_fallback claims :
  (OktaClaims.Email claims ≠ "" → extractEmail claims = OktaClaims.Email claims)
  ∧ (OktaClaims.Email claims = "" →
     extractEmail claims = OktaClaims.PreferredUsername claims)
  ∧ extractEmail (OktaClaims.mk (OktaClaims.ID claims) "" "u@example.com"
                    (OktaClaims.Name claims)) = "u@example.com"
  ∧ extractEmail (OktaClaims.mk (OktaClaims.ID claims) "" ""
                    (OktaClaims.Name claims)) = ""
  ∧ (∀ s client token e,
       token_claims token = Some claims →
       extractEmail claims = "" →
       UserInfo s client token e = (Err ErrNoEmail, e)).
Proof.
  repeat apply conj.
  - intros Hemail. unfold extractEmail.
    destruct (String.eqb_spec (OktaClaims.Email claims) ""); [contradiction | reflexivity].
  - intros Hemail. unfold extractEmail. rewrite Hemail. simpl.
    destruct (String.eqb_spec (OktaClaims.PreferredUsername claims) "") as [->|];
      reflexivity.
  - reflexivity.
  - reflexivity.
  - intros s client token e. apply UserInfo_no_email.
Qed.

(** C9 (as amended). When [Extra] yields for [id_token] a value that is
    neither nil nor a string, [UserInfo] panics in the type assertion and
    returns none of its errors. The no-id-token error is returned exactly
    when [Extra] yields nil: that covers a token without the entry, and
    also a token whose entry is there and holds null. *)
Theorem UserInfo_non_string_id_token_panics s client token e :
  (Token.Extra token "id_token" ≠ INil →
   is_string (Token.Extra token "id_token") = false →
   ∃ reason, UserInfo s client token e = (Panic reason, e))
  ∧ ((UserInfo s client token e).1 = Err ErrNoIdToken ↔
     Token.Extra token "id_token" = INil).
Proof.
  split.
  - intros Hnil Hstr. unfold UserInfo.
    destruct (Token.Extra token "id_token"); try (eexists; reflexivity);
      [contradiction | discriminate].
  - unfold UserInfo. split.
    + destruct (Token.Extra token "id_token") as [|str| | | |]; try discriminate;
        [reflexivity|].
      destruct (jwt_ParseSigned str) as [parsed|]; [|discriminate].
      destruct (UnsafeClaimsWithoutVerification parsed) as [claims|]; [|discriminate].
      destruct (String.eqb (extractEmail claims) ""); [discriminate|].
      intros Hrun. exfalso. revert Hrun.
      unfold mbind, St_bind, mret, St_ret.
      destruct (extractAPI s OktaUserInfoJson.zero client e) as [[d ok] e1].
      destruct (GetGroups s client e1) as [g e2]. discriminate.
    + intros ->. reflexivity.
Qed.

(** C10. Two resolutions of one token whose fetched documents agree on
    [rawJSON] and on [Groups] return the same identity, whatever the other
    typed fields of the documents hold. *)
Theorem UserInfo_reads_rawJSON_and_Groups_only s token client client' e e' :
  let first := extractAPI s OktaUserInfoJson.zero client e in
  let second := extractAPI s OktaUserInfoJson.zero client first.2 in
  let first' := extractAPI s OktaUserInfoJson.zero client' e' in
  let second' := extractAPI s OktaUserInfoJson.zero client' first'.2 in
  OktaUserInfoJson.rawJSON first.1.1 = OktaUserInfoJson.rawJSON first'.1.1 →
  OktaUserInfoJson.Groups first.1.1 = OktaUserInfoJson.Groups first'.1.1 →
  OktaUserInfoJson.rawJSON second.1.1 = OktaUserInfoJson.rawJSON second'.1.1 →
  OktaUserInfoJson.Groups second.1.1 = OktaUserInfoJson.Groups second'.1.1 →
  (UserInfo s client token e).1 = (UserInfo s client' token e').1.
Proof.
  simpl. intros Hraw1 _ _ Hgroups2.
  destruct (token_claims token) as [claims|] eqn:Hclaims.
  - destruct (String.eqb_spec (extractEmail claims) "") as [Hemail|Hemail].
    + rewrite !(UserInfo_no_email s _ token _ claims Hclaims Hemail). reflexivity.
    + rewrite !(UserInfo_resolved s _ token _ claims Hclaims Hemail). simpl.
      rewrite (assembled_reads s claims _ _ _ _ Hraw1 Hgroups2). reflexivity.
  - unfold token_claims in Hclaims. unfold UserInfo.
    destruct (Token.Extra token "id_token") as [|str| | | |]; try reflexivity.
    destruct (jwt_ParseSigned str) as [parsed|]; [simpl in Hclaims|reflexivity].
    rewrite Hclaims. reflexivity.
Qed.

End Claims.

(** C1, counterexample: one resolution of the token [idTokenAB] against an
    endpoint that answers every request sends two requests. *)
Lemma UserInfo_fetches_twice :
  let r := Scenario.Resolve Scenario.okta
             (Reference.always (HttpOk (mkResp Scenario.userinfoBody)))
             (Reference.token_with (IString Scenario.idTokenAB)) no_effects in
  r.1 = Ok Scenario.identityAB ∧ ¬ (length (outbound r.2) ≤ 1)%nat.
Proof. vm_compute. split; [reflexivity | lia]. Qed.

(** C2, witness: the token [idTokenAB] resolves to an identity with an
    email; the token [idTokenNobody], which has neither claim, is refused. *)
Lemma UserInfo_email_never_empty_witness :
  BasicUserInfo.Email Scenario.identityAB ≠ ""
  ∧ Scenario.Resolve Scenario.okta
      (Reference.always (HttpOk (mkResp Scenario.userinfoBody)))
      (Reference.token_with (IString Scenario.idTokenNobody)) no_effects
    = (Err ErrNoEmail, no_effects).
Proof.
  split.
  - apply (proj1 (@UserInfo_email_never_empty Reference.collaborators Scenario.okta
             (Reference.always (HttpOk (mkResp Scenario.userinfoBody)))
             (Reference.token_with (IString Scenario.idTokenAB)) no_effects)).
    vm_compute. reflexivity.
  - apply (proj2 (@UserInfo_email_never_empty Reference.collaborators Scenario.okta
             (Reference.always (HttpOk (mkResp Scenario.userinfoBody)))
             (Reference.token_with (IString Scenario.idTokenNobody)) no_effects)
             (OktaClaims.mk "7" "" "" "Nobody")).
    + vm_compute. reflexivity.
    + reflexivity.
    + reflexivity.
Defined.

(** C3, counterexample: the endpoint answers with an HTML error page; the
    page is received, decoding fails, and [rawJSON] is empty afterwards. *)
Lemma extractAPI_drops_undecodable_body :
  let client := Reference.always (HttpOk (mkResp Scenario.htmlBody)) in
  let r := (Scenario.Fetch Scenario.okta OktaUserInfoJson.zero client no_effects).1 in
  roundTrip client [] (SocialOkta.apiUrl Scenario.okta)
    = HttpOk (mkResp Scenario.htmlBody)
  ∧ (@json_Unmarshal Reference.collaborators Scenario.htmlBody
       (OktaUserInfoJson.set_rawJSON OktaUserInfoJson.zero Scenario.htmlBody)).2 = true
  ∧ OktaUserInfoJson.rawJSON r.1 ≠ Scenario.htmlBody.
Proof. vm_compute. split; [reflexivity | split; [reflexivity | discriminate]]. Qed.

(** C3, witness: the same answer, through the theorem. *)
Lemma extractAPI_rawJSON_after_decoding_witness :
  let r := (Scenario.Fetch Scenario.okta OktaUserInfoJson.zero
              (Reference.always (HttpOk (mkResp Scenario.htmlBody))) no_effects).1 in
  OktaUserInfoJson.rawJSON r.1 = [] ∧ r.2 = false.
Proof.
  apply (@extractAPI_rawJSON_after_decoding Reference.collaborators Scenario.okta
           OktaUserInfoJson.zero
           (Reference.always (HttpOk (mkResp Scenario.htmlBody))) no_effects
           (mkResp Scenario.htmlBody)).
  reflexivity.
Defined.

(** C4, counterexample: the first request times out and the second is
    answered. The fetch of [UserInfo] has failed, yet the identity carries
    the groups of the second answer. *)
Lemma UserInfo_groups_after_failed_fetch :
  let client := Reference.scripted
                  [HttpErr "timeout"; HttpOk (mkResp Scenario.userinfoBody)] in
  let r := Scenario.Resolve Scenario.okta client
             (Reference.token_with (IString Scenario.idTokenAB)) no_effects in
  (Scenario.Fetch Scenario.okta OktaUserInfoJson.zero client no_effects).1.2 = false
  ∧ r.1 = Ok (BasicUserInfo.mk "123" "A B" "a@b.com" "a@b.com" "" ["eng"])
  ∧ ¬ (∃ u, r.1 = Ok u ∧ BasicUserInfo.Role u = "" ∧ BasicUserInfo.Groups u = []).
Proof.
  vm_compute. split; [reflexivity | split; [reflexivity|]].
  intros [u [Hu [_ Hgroups]]]. injection Hu as <-. discriminate Hgroups.
Qed.

(** C4, witness: both requests time out; the identity of [idTokenAB] is
    returned with no role and no groups. *)
Lemma UserInfo_absorbs_fetch_failure_witness :
  ∃ u e, Scenario.Resolve Scenario.okta (Reference.always (HttpErr "timeout"))
           (Reference.token_with (IString Scenario.idTokenAB)) no_effects = (Ok u, e)
    ∧ BasicUserInfo.Role u = "" ∧ BasicUserInfo.Groups u = [].
Proof.
  destruct (@UserInfo_absorbs_fetch_failure Reference.collaborators Scenario.okta
              (Reference.always (HttpErr "timeout"))
              (Reference.token_with (IString Scenario.idTokenAB)) no_effects
              Scenario.claimsAB)
    as [u [Hrun [Hrole Hgroups]]].
  - vm_compute. reflexivity.
  - vm_compute. discriminate.
  - intros path. unfold searchJSONForAttr. simpl.
    unfold AttributePathEvaluator.Evaluate.
    destruct (String.eqb path ""); reflexivity.
  - exists u. eexists. split; [exact Hrun|]. split.
    + apply Hrole. vm_compute. reflexivity.
    + apply Hgroups. exists "timeout". vm_compute. reflexivity.
Defined.

(** With the reference decoder: an answer that fails decoding after its
    groups were stored still contributes them, although every fetch of the
    resolution has failed and [rawJSON] has been emptied. *)
Lemma UserInfo_groups_survive_decode_failure :
  let client := Reference.always (HttpOk (mkResp Scenario.mistypedBody)) in
  (Scenario.Fetch Scenario.okta OktaUserInfoJson.zero client no_effects).1.2 = false
  ∧ (Scenario.Resolve Scenario.okta client
       (Reference.token_with (IString Scenario.idTokenAB)) no_effects).1
    = Ok (BasicUserInfo.mk "123" "A B" "a@b.com" "a@b.com" "" ["eng"]).
Proof. vm_compute. split; reflexivity. Qed.

(** C5, witness: [not-a-token] has no three parts. *)
Lemma UserInfo_malformed_id_token_witness :
  Scenario.Resolve Scenario.okta
    (Reference.always (HttpOk (mkResp Scenario.userinfoBody)))
    (Reference.token_with (IString "not-a-token")) no_effects
  = (Err ErrParsingIdToken, no_effects).
Proof.
  apply (@UserInfo_malformed_id_token Reference.collaborators Scenario.okta
           (Reference.always (HttpOk (mkResp Scenario.userinfoBody)))
           (Reference.token_with (IString "not-a-token")) no_effects "not-a-token").
  - vm_compute. reflexivity.
  - vm_compute. reflexivity.
Defined.

(** C6, witness: the claims of [idTokenAB], and the same claims with the
    email moved to the preferred username. *)
Lemma extractEmail_fallback_witness :
  extractEmail Scenario.claimsAB = "a@b.com"
  ∧ extractEmail (OktaClaims.mk "123" "" "a@b.com" "A B") = "a@b.com".
Proof.
  split.
  - apply (proj1 (@extractEmail_fallback Reference.collaborators Scenario.claimsAB)).
    discriminate.
  - apply (proj1 (proj2 (@extractEmail_fallback Reference.collaborators
                           (OktaClaims.mk "123" "" "a@b.com" "A B")))).
    reflexivity.
Defined.

(** C9, witness: a token whose [id_token] entry is the number 3, and a
    token without the entry. *)
Lemma UserInfo_non_string_id_token_panics_witness :
  (∃ reason, Scenario.Resolve Scenario.okta
               (Reference.always (HttpOk (mkResp Scenario.userinfoBody)))
               (Reference.token_with (IInt64 3)) no_effects = (Panic reason, no_effects))
  ∧ Token.Extra (Token.mk "access" ∅) "id_token" = INil.
Proof.
  split.
  - apply (proj1 (@UserInfo_non_string_id_token_panics Reference.collaborators
             Scenario.okta (Reference.always (HttpOk (mkResp Scenario.userinfoBody)))
             (Reference.token_with (IInt64 3)) no_effects)).
    + vm_compute. discriminate.
    + vm_compute. reflexivity.
  - apply (proj2 (@UserInfo_non_string_id_token_panics Reference.collaborators
             Scenario.okta (Reference.always (HttpOk (mkResp Scenario.userinfoBody)))
             (Token.mk "access" ∅) no_effects)).
    vm_compute. reflexivity.
Defined.

(** C10, witness: two endpoints whose answers both fail decoding, one after
    storing a name and the other after storing a login and an email; the
    documents differ in those fields and the identities are the same. *)
Lemma UserInfo_reads_rawJSON_and_Groups_only_witness :
  let client := Reference.always (HttpOk (mkResp
                  (Reference.json_bytes "{'groups':['eng'],'name':'A','upn':5}"))) in
  let client' := Reference.always (HttpOk (mkResp
                  (Reference.json_bytes "{'login':'b','email':'b@c.d','groups':['eng'],'upn':[]}"))) in
  (Scenario.Fetch Scenario.okta OktaUserInfoJson.zero client no_effects).1.1
    ≠ (Scenario.Fetch Scenario.okta OktaUserInfoJson.zero client' no_effects).1.1
  ∧ (Scenario.Resolve Scenario.okta client
       (Reference.token_with (IString Scenario.idTokenAB)) no_effects).1
    = (Scenario.Resolve Scenario.okta client'
         (Reference.token_with (IString Scenario.idTokenAB)) no_effects).1.
Proof.
  simpl. split.
  - vm_compute. discriminate.
  - apply (@UserInfo_reads_rawJSON_and_Groups_only Reference.collaborators).
    + vm_compute. reflexivity.
    + vm_compute. reflexivity.
    + vm_compute. reflexivity.
    + vm_compute. reflexivity.
Defined.

(** C8. Role extraction answers the empty string when no path is
    configured, whatever the attribute search would do and whatever the
    document holds; it answers the empty string whenever the search finds
    nothing. The attribute search answers the empty string for the empty
    path and for every path that does not resolve: in a malformed document,
    at a missing key, and at a value of the wrong type. On
    [{"info":{"role":"admin"}}] the path [info.role] gives [admin] and
    [info.missing] gives the empty string. Whatever the search answers, a
    token with an email resolves to an identity. *)
Theorem extractRole_silent_miss :
  (∀ (C : Collaborators) s data,
     SocialOkta.roleAttributePath s = "" → extractRole s data = "")
  ∧ (∀ (C : Collaborators) s data,
       searchJSONForAttr (SocialOkta.roleAttributePath s)
         (OktaUserInfoJson.rawJSON data) = "" →
       extractRole s data = "")
  ∧ (∀ document, AttributePathEvaluator.Evaluate "" document = "")
  ∧ (∀ path document,
       AttributePathEvaluator.unresolved path document →
       AttributePathEvaluator.Evaluate path document = "")
  ∧ (∀ path document,
       JSON.parse_bytes document = None →
       AttributePathEvaluator.unresolved path document)
  ∧ (∀ k ks members,
       AttributePathEvaluator.has_key k members = false →
       AttributePathEvaluator.resolve (k :: ks) (JSON.Object members) = None)
  ∧ (∀ keys k members s b n,
       AttributePathEvaluator.resolve keys JSON.Null = None
       ∧ AttributePathEvaluator.resolve keys (JSON.Bool b) = None
       ∧ AttributePathEvaluator.resolve keys (JSON.Number n) = None
       ∧ AttributePathEvaluator.resolve (k :: keys) (JSON.Str s) = None
       ∧ AttributePathEvaluator.resolve [] (JSON.Object members) = None)
  ∧ AttributePathEvaluator.Evaluate "info.role"
      (Reference.json_bytes "{'info':{'role':'admin'}}") = "admin"
  ∧ AttributePathEvaluator.Evaluate "info.missing"
      (Reference.json_bytes "{'info':{'role':'admin'}}") = ""
  ∧ (∀ (C : Collaborators) s client token e claims,
       token_claims token = Some claims →
       extractEmail claims ≠ "" →
       is_ok (UserInfo s client token e).1 = true).
Proof.
  repeat apply conj.
  - intros C s data Hpath. rewrite extractRole_eq, Hpath. reflexivity.
  - intros C s data Hmiss. rewrite extractRole_eq, Hmiss.
    destruct (String.eqb _ _); reflexivity.
  - reflexivity.
  - exact Evaluate_unresolved.
  - intros path document Hbad v Hv. rewrite Hbad in Hv. discriminate.
  - exact resolve_missing_key.
  - intros keys k members s b n. repeat apply conj; reflexivity.
  - vm_compute. reflexivity.
  - vm_compute. reflexivity.
  - intros C s client token e claims Hclaims Hemail.
    rewrite (UserInfo_resolved s client token e claims Hclaims Hemail). reflexivity.
Qed.

(** C8, witness: no path configured; a document that is cut short; a
    number where the role should be; and the token [idTokenAB] against an
    endpoint whose answer has no role. *)
Lemma extractRole_silent_miss_witness :
  @extractRole Reference.collaborators
    (SocialOkta.mk "https://example.okta.com/oauth2/v1/userinfo" [] [] true "")
    (OktaUserInfoJson.set_rawJSON OktaUserInfoJson.zero Scenario.userinfoBody) = ""
  ∧ AttributePathEvaluator.Evaluate "attrs.role"
      (Reference.json_bytes "{'attrs':{'role':") = ""
  ∧ AttributePathEvaluator.resolve ["attrs"; "role"]
      (JSON.Object [("attrs", JSON.Object [("rank", JSON.Number "5")])]) = None
  ∧ is_ok (Scenario.Resolve Scenario.okta
             (Reference.always (HttpOk (mkResp Scenario.mistypedBody)))
             (Reference.token_with (IString Scenario.idTokenAB)) no_effects).1 = true.
Proof.
  pose proof extractRole_silent_miss
    as [Hempty [_ [_ [Hun [Hbad [Hkey [_ [_ [_ Hlogin]]]]]]]]].
  repeat apply conj.
  - apply Hempty. reflexivity.
  - apply Hun, Hbad. vm_compute. reflexivity.
  - change (AttributePathEvaluator.resolve ["role"]
              (JSON.Object [("rank", JSON.Number "5")]) = None).
    apply Hkey. vm_compute. reflexivity.
  - apply (Hlogin Reference.collaborators) with (claims := Scenario.claimsAB).
    + vm_compute. reflexivity.
    + vm_compute. discriminate.
Defined.

(** * Further properties of the resolution *)

Section Further.
Context `{Collaborators}.

(** ** Shared lemmas *)

Lemma extractAPI_run s data client e :
  extractAPI s data client e =
    (fetched s data client e,
     mkEffects (outbound e ++ [SocialOkta.apiUrl s])
               (logged e ++ [fetch_line s data client e])).
Proof.
  unfold extractAPI, fetched, fetch_line.
  unfold mbind, St_bind, mret, St_ret, s_log_Debug, s_log_Error, log, HttpGet; simpl.
  destruct (roundTrip client (outbound e) (SocialOkta.apiUrl s)) as [resp|err]; simpl.
  - destruct (json_Unmarshal _ _) as [d [|]]; reflexivity.
  - reflexivity.
Qed.

Lemma extractEmail_empty claims :
  extractEmail claims = "" ↔
  OktaClaims.Email claims = "" ∧ OktaClaims.PreferredUsername claims = "".
Proof.
  unfold extractEmail.
  destruct (String.eqb_spec (OktaClaims.Email claims) "") as [He|He];
    destruct (String.eqb_spec (OktaClaims.PreferredUsername claims) "") as [Hp|Hp];
    simpl; split; try tauto; intros []; congruence.
Qed.

Lemma fetched_stateless s data client e e' :
  stateless client → fetched s data client e = fetched s data client e'.
Proof.
  intros Hst. unfold fetched.
  rewrite (Hst (outbound e) (outbound e')). reflexivity.
Qed.

Lemma fetch_line_level s data client e :
  lvl (fetch_line s data client e) = LvlError →
  msg (fetch_line s data client e) = "Error decoding user info response".
Proof.
  unfold fetch_line.
  destruct (roundTrip client (outbound e) (SocialOkta.apiUrl s)) as [resp|err];
    [|discriminate].
  destruct (json_Unmarshal _ _).2; [reflexivity | discriminate].
Qed.

(** ** [extractEmail] *)

(** X1. The derived email is empty exactly when both the [email] and the
    [preferred_username] claim are empty, and it is always one of the two
    claims. *)
Theorem extractEmail_empty_iff claims :
  (extractEmail claims = "" ↔
   OktaClaims.Email claims = "" ∧ OktaClaims.PreferredUsername claims = "")
  ∧ (extractEmail claims = OktaClaims.Email claims
     ∨ extractEmail claims = OktaClaims.PreferredUsername claims).
Proof.
  split; [apply extractEmail_empty|].
  unfold extractEmail.
  destruct (String.eqb (OktaClaims.Email claims) ""); [|left; reflexivity].
  destruct (String.eqb (OktaClaims.PreferredUsername claims) ""); simpl;
    [left | right]; reflexivity.
Qed.

(** ** Which outcome, and when *)

(** X2. Whether [UserInfo] returns an identity is decided by the token
    alone: it does exactly when the claims of the identity token can be read
    and the [email] or the [preferred_username] claim is not empty. No answer
    of the endpoint, and no failure of it, changes that. *)
Theorem UserInfo_succeeds_iff s client token e :
  is_ok (UserInfo s client token e).1 = true ↔
  ∃ claims, token_claims token = Some claims
    ∧ (OktaClaims.Email claims ≠ "" ∨ OktaClaims.PreferredUsername claims ≠ "").
Proof.
  split.
  - destruct (UserInfo s client token e).1 as [u| |] eqn:Hrun; try discriminate.
    intros _.
    destruct (UserInfo_Ok_inv s client token e u Hrun) as [claims [Hclaims Hemail]].
    exists claims. split; [exact Hclaims|].
    destruct (String.eqb_spec (OktaClaims.Email claims) "") as [He|He]; [|left; exact He].
    right. intros Hp. apply Hemail. apply extractEmail_empty. split; assumption.
  - intros [claims [Hclaims Hsome]].
    rewrite (UserInfo_resolved s client token e claims Hclaims); [reflexivity|].
    intros Hemail. apply extractEmail_empty in Hemail as [He Hp].
    destruct Hsome; contradiction.
Qed.

(** X3. The three errors behind the nil check, each with its exact cause:
    the parse error when the [id_token] string does not parse; the claims
    error when it parses but its claims cannot be read; the no-email error
    when the claims are read and both [email] and [preferred_username] are
    empty. *)
Theorem UserInfo_error_causes s client token e :
  ((UserInfo s client token e).1 = Err ErrParsingIdToken ↔
   ∃ str, Token.Extra token "id_token" = IString str ∧ jwt_ParseSigned str = None)
  ∧ ((UserInfo s client token e).1 = Err ErrGettingClaims ↔
     ∃ str parsed, Token.Extra token "id_token" = IString str
       ∧ jwt_ParseSigned str = Some parsed
       ∧ UnsafeClaimsWithoutVerification parsed = None)
  ∧ ((UserInfo s client token e).1 = Err ErrNoEmail ↔
     ∃ claims, token_claims token = Some claims
       ∧ OktaClaims.Email claims = "" ∧ OktaClaims.PreferredUsername claims = "").
Proof.
  unfold token_claims.
  destruct (Token.Extra token "id_token") as [|str| | | |] eqn:Hextra.
  1,3-6: unfold UserInfo; rewrite Hextra; simpl;
    repeat split; try discriminate;
    try (intros [? [? ?]]; discriminate);
    try (intros [? [? [? ?]]]; discriminate).
  destruct (jwt_ParseSigned str) as [parsed|] eqn:Hparse.
  - destruct (UnsafeClaimsWithoutVerification parsed) as [claims|] eqn:Hclaims.
    + assert (token_claims token = Some claims) as Htc.
      { unfold token_claims. rewrite Hextra, Hparse. exact Hclaims. }
      destruct (String.eqb_spec (extractEmail claims) "") as [Hemail|Hemail].
      * rewrite (UserInfo_no_email s client token e claims Htc Hemail). simpl.
        repeat split; try discriminate.
        -- intros [str' [Hs Hp]]. injection Hs as <-. congruence.
        -- intros [str' [parsed' [Hs [Hp Hc]]]]. injection Hs as <-.
           rewrite Hparse in Hp. injection Hp as <-. congruence.
        -- intros _. exists claims. simpl. rewrite Hclaims.
           split; [reflexivity | apply extractEmail_empty; exact Hemail].
      * rewrite (UserInfo_resolved s client token e claims Htc Hemail). simpl.
        repeat split; try discriminate.
        -- intros [str' [Hs Hp]]. injection Hs as <-. congruence.
        -- intros [str' [parsed' [Hs [Hp Hc]]]]. injection Hs as <-.
           rewrite Hparse in Hp. injection Hp as <-. congruence.
        -- intros [claims' [Hc' Hboth]]. simpl in Hc'. rewrite Hclaims in Hc'.
           injection Hc' as <-. exfalso. apply Hemail, extractEmail_empty, Hboth.
    + unfold UserInfo. rewrite Hextra, Hparse, Hclaims. simpl.
      repeat split; try discriminate.
      * intros [str' [Hs Hp]]. injection Hs as <-. congruence.
      * intros _. exists str, parsed. repeat split; assumption.
      * intros [claims' [Hc' _]]. simpl in Hc'. congruence.
  - unfold UserInfo. rewrite Hextra, Hparse. simpl.
    repeat split; try discriminate.
    + intros _. exists str. split; [reflexivity | assumption].
    + intros [str' [parsed' [Hs [Hp _]]]]. injection Hs as <-. congruence.
    + intros [claims' [Hc' _]]. discriminate.
Qed.

(** X4. A resolution that returns no identity, be it with an error or with
    a panic, has done nothing: no request was sent and no line was logged. *)
Theorem UserInfo_failure_has_no_effects s client token e :
  is_ok (UserInfo s client token e).1 = false →
  (UserInfo s client token e).2 = e.
Proof.
  intros Hfail.
  destruct (token_claims token) as [claims|] eqn:Hclaims.
  - destruct (String.eqb_spec (extractEmail claims) "") as [Hemail|Hemail].
    + rewrite (UserInfo_no_email s client token e claims Hclaims Hemail). reflexivity.
    + rewrite (UserInfo_resolved s client token e claims Hclaims Hemail) in Hfail.
      discriminate.
  - apply UserInfo_rejected. left. exact Hclaims.
Qed.

(** ** One fetch, and the log *)

(** X5. When the request fails, [extractAPI] hands the struct back exactly
    as it received it, returns false, and has written one line to the log,
    at debug level. *)
Theorem extractAPI_transport_error s data client e err :
  roundTrip client (outbound e) (SocialOkta.apiUrl s) = HttpErr err →
  extractAPI s data client e =
    ((data, false),
     mkEffects (outbound e ++ [SocialOkta.apiUrl s])
       (logged e ++ [mkLog LvlDebug "Error getting user info response"])).
Proof.
  intros Herr. rewrite extractAPI_run. unfold fetched, fetch_line.
  rewrite Herr. reflexivity.
Qed.

(** X6. Every call of [extractAPI] sends one request and writes one line
    after the lines that were there. The line is at error level exactly
    when a response was received and could not be decoded, and it reports
    the receipt of the response exactly when the call returns true. *)
Theorem extractAPI_logs_one_line s data client e :
  ∃ line,
    (extractAPI s data client e).2 =
      mkEffects (outbound e ++ [SocialOkta.apiUrl s]) (logged e ++ [line])
    ∧ (lvl line = LvlError ↔
       ∃ resp, roundTrip client (outbound e) (SocialOkta.apiUrl s) = HttpOk resp
         ∧ (json_Unmarshal (Body resp)
              (OktaUserInfoJson.set_rawJSON data (Body resp))).2 = true)
    ∧ ((extractAPI s data client e).1.2 = true ↔
       line = mkLog LvlDebug "Received user info response").
Proof.
  exists (fetch_line s data client e). rewrite extractAPI_run. simpl.
  split; [reflexivity|]. unfold fetch_line, fetched.
  destruct (roundTrip client (outbound e) (SocialOkta.apiUrl s)) as [resp|err]; simpl.
  - destruct (json_Unmarshal _ _).2 eqn:Hfail; simpl; repeat split; try discriminate.
    + intros _. exists resp. split; [reflexivity | exact Hfail].
    + intros [resp' [Hresp Hfail']]. injection Hresp as <-. congruence.
  - repeat split; try discriminate. intros [resp [Hresp _]]. discriminate.
Qed.

(** X7. Without a role path in the configuration, so that [extractRole]
    does not call the attribute search: a resolution that returns an
    identity has written exactly two lines to the log, after the lines that
    were there, and any other resolution has written none; a line at error
    level among them always reports a response that could not be
    decoded. *)
Theorem UserInfo_log_lines s client token e :
  SocialOkta.roleAttributePath s = "" →
  ∃ lines,
    logged (UserInfo s client token e).2 = logged e ++ lines
    ∧ length lines = (if is_ok (UserInfo s client token e).1 then 2 else 0)
    ∧ Forall (λ line, lvl line = LvlError →
                      msg line = "Error decoding user info response") lines.
Proof.
  intros _.
  destruct (token_claims token) as [claims|] eqn:Hclaims.
  - destruct (String.eqb_spec (extractEmail claims) "") as [Hemail|Hemail].
    + rewrite (UserInfo_no_email s client token e claims Hclaims Hemail).
      exists []. simpl. rewrite app_nil_r. repeat split. constructor.
    + rewrite (UserInfo_resolved s client token e claims Hclaims Hemail). simpl.
      rewrite !extractAPI_run. simpl.
      eexists [_; _]. rewrite <- app_assoc. simpl. split; [reflexivity|].
      split; [reflexivity|].
      repeat constructor; apply fetch_line_level.
  - destruct (UserInfo_rejected s client token e) as [Hno Heff]; [left; exact Hclaims|].
    rewrite Hno, Heff. exists []. rewrite app_nil_r. repeat split. constructor.
Qed.

(** ** What the resolution does not read *)

(** X8. [UserInfo] reads [apiUrl] and [roleAttributePath] and nothing else
    of the configuration: the allowed domains, the allowed groups and the
    signup switch have no influence on the outcome or on the requests. The
    resolution does not apply the access policy. *)
Theorem UserInfo_ignores_access_policy s s' client token e :
  SocialOkta.apiUrl s = SocialOkta.apiUrl s' →
  SocialOkta.roleAttributePath s = SocialOkta.roleAttributePath s' →
  UserInfo s client token e = UserInfo s' client token e.
Proof.
  destruct s as [url domains groups signup path].
  destruct s' as [url' domains' groups' signup' path']. simpl.
  intros <- <-. reflexivity.
Qed.

(** X9. Of the token, [UserInfo] reads the [id_token] entry and nothing
    else: two tokens with the same entry, whatever their access tokens and
    their other entries, give the same outcome and the same requests. *)
Theorem UserInfo_reads_id_token_only s client token token' e :
  Token.Extra token "id_token" = Token.Extra token' "id_token" →
  UserInfo s client token e = UserInfo s client token' e.
Proof.
  intros Hsame. unfold UserInfo. rewrite Hsame. reflexivity.
Qed.

(** ** Role and groups *)

(** X10. Against an endpoint whose answers do not depend on the requests
    sent before, the outcome of a resolution does not depend on what was
    requested or logged before it, so that resolving again gives the same
    outcome; and the role and the groups of a returned identity then come
    from one and the same document. *)
Theorem UserInfo_stateless_endpoint s client token e e' :
  stateless client →
  (UserInfo s client token e).1 = (UserInfo s client token e').1
  ∧ (UserInfo s client token (UserInfo s client token e).2).1
    = (UserInfo s client token e).1
  ∧ (∀ u, (UserInfo s client token e).1 = Ok u →
       let data := (extractAPI s OktaUserInfoJson.zero client e).1.1 in
       BasicUserInfo.Role u = extractRole s data
       ∧ BasicUserInfo.Groups u = OktaUserInfoJson.Groups data).
Proof.
  intros Hst.
  assert (∀ e1 e2, (UserInfo s client token e1).1 = (UserInfo s client token e2).1)
    as Hany.
  { intros e1 e2. destruct (token_claims token) as [claims|] eqn:Hclaims.
    - destruct (String.eqb_spec (extractEmail claims) "") as [Hemail|Hemail].
      + rewrite !(UserInfo_no_email s client token _ claims Hclaims Hemail).
        reflexivity.
      + rewrite !(UserInfo_resolved s client token _ claims Hclaims Hemail). simpl.
        rewrite !extractAPI_value.
        rewrite (fetched_stateless s _ client e1 e2 Hst).
        rewrite (fetched_stateless s _ client (extractAPI s OktaUserInfoJson.zero client e1).2
                   (extractAPI s OktaUserInfoJson.zero client e2).2 Hst).
        reflexivity.
    - destruct (UserInfo_rejected s client token e1) as [Hno1 _]; [left; exact Hclaims|].
      destruct (UserInfo_rejected s client token e2) as [Hno2 _]; [left; exact Hclaims|].
      unfold token_claims in Hclaims. unfold UserInfo in *.
      destruct (Token.Extra token "id_token") as [|str| | | |]; try reflexivity.
      destruct (jwt_ParseSigned str) as [parsed|]; [simpl in Hclaims|reflexivity].
      rewrite Hclaims. reflexivity. }
  split; [apply Hany|]. split; [apply Hany|].
  intros u Hok.
  destruct (UserInfo_Ok_inv s client token e u Hok) as [claims [Hclaims Hemail]].
  rewrite (UserInfo_resolved s client token e claims Hclaims Hemail) in Hok.
  simpl in *. injection Hok as <-. simpl. split; [reflexivity|].
  rewrite !extractAPI_value.
  rewrite (fetched_stateless s _ client
             (extractAPI s OktaUserInfoJson.zero client e).2 e Hst).
  reflexivity.
Qed.

(** X11. When the first response is received and decodes, the role of the
    identity is what the attribute search finds in the bytes of that
    response as they were received, for a configured path, and the empty
    string without one; the decoded fields play no part in it. *)
Theorem UserInfo_role_from_response_bytes s client token e claims resp :
  token_claims token = Some claims →
  extractEmail claims ≠ "" →
  roundTrip client (outbound e) (SocialOkta.apiUrl s) = HttpOk resp →
  (json_Unmarshal (Body resp)
     (OktaUserInfoJson.set_rawJSON OktaUserInfoJson.zero (Body resp))).2 = false →
  ∃ u, (UserInfo s client token e).1 = Ok u
    ∧ BasicUserInfo.Role u =
        (if String.eqb (SocialOkta.roleAttributePath s) "" then ""
         else searchJSONForAttr (SocialOkta.roleAttributePath s) (Body resp)).
Proof.
  intros Hclaims Hemail Hresp Hdecoded.
  rewrite (UserInfo_resolved s client token e claims Hclaims Hemail). simpl.
  eexists. split; [reflexivity|]. simpl.
  rewrite extractRole_eq, extractAPI_value, fetched_rawJSON, Hresp, Hdecoded.
  reflexivity.
Qed.

(** X12. A call of [GetGroups] is one fetch into a fresh document: it sends
    one request to [apiUrl] and writes one line to the log, returns the
    groups that the decoder stored for the response, and returns the empty
    sequence when the request fails, whatever was fetched before. *)
Theorem GetGroups_one_fetch s client e :
  (GetGroups s client e).2 = (extractAPI s OktaUserInfoJson.zero client e).2
  ∧ outbound (GetGroups s client e).2 = outbound e ++ [SocialOkta.apiUrl s]
  ∧ (GetGroups s client e).1 =
      OktaUserInfoJson.Groups (extractAPI s OktaUserInfoJson.zero client e).1.1
  ∧ ((∃ err, roundTrip client (outbound e) (SocialOkta.apiUrl s) = HttpErr err) →
     (GetGroups s client e).1 = []).
Proof.
  rewrite GetGroups_effects, GetGroups_value, extractAPI_outbound, extractAPI_value.
  repeat split. intros [err Herr]. unfold fetched. rewrite Herr. reflexivity.
Qed.

(** X19. The groups of a returned identity are the groups that the decoder
    stored for the answer to the second request, the one sent by
    [GetGroups] after the request of [UserInfo] itself; they are returned
    whether or not the decoder reported an error for that answer. *)
Theorem UserInfo_groups_from_second_response s client token e claims resp :
  token_claims token = Some claims →
  extractEmail claims ≠ "" →
  roundTrip client (outbound e ++ [SocialOkta.apiUrl s]) (SocialOkta.apiUrl s)
    = HttpOk resp →
  ∃ u, (UserInfo s client token e).1 = Ok u
    ∧ BasicUserInfo.Groups u =
        OktaUserInfoJson.Groups
          (json_Unmarshal (Body resp)
             (OktaUserInfoJson.set_rawJSON OktaUserInfoJson.zero (Body resp))).1.
Proof.
  intros Hclaims Hemail Hresp.
  rewrite (UserInfo_resolved s client token e claims Hclaims Hemail). simpl.
  eexists. split; [reflexivity|]. simpl.
  rewrite extractAPI_value. unfold fetched.
  rewrite extractAPI_outbound, Hresp.
  destruct (json_Unmarshal _ _) as [d [|]]; reflexivity.
Qed.

End Further.

(** X1, witness: claims with neither an email nor a preferred username. *)
Lemma extractEmail_empty_iff_witness :
  extractEmail (OktaClaims.mk "7" "" "" "Nobody") = "".
Proof.
  apply (proj2 (proj1 (extractEmail_empty_iff (OktaClaims.mk "7" "" "" "Nobody")))).
  split; reflexivity.
Defined.

(** X2, witness: [idTokenAB] resolves although every request times out. *)
Lemma UserInfo_succeeds_iff_witness :
  is_ok (Scenario.Resolve Scenario.okta (Reference.always (HttpErr "timeout"))
           (Reference.token_with (IString Scenario.idTokenAB)) no_effects).1 = true.
Proof.
  apply (proj2 (@UserInfo_succeeds_iff Reference.collaborators Scenario.okta
                  (Reference.always (HttpErr "timeout"))
                  (Reference.token_with (IString Scenario.idTokenAB)) no_effects)).
  exists Scenario.claimsAB. split.
  - vm_compute. reflexivity.
  - left. discriminate.
Defined.

(** X3, witness: [idTokenNobody] is refused for want of an email. *)
Lemma UserInfo_error_causes_witness :
  (Scenario.Resolve Scenario.okta (Reference.always (HttpErr "timeout"))
     (Reference.token_with (IString Scenario.idTokenNobody)) no_effects).1
  = Err ErrNoEmail.
Proof.
  apply (proj2 (proj2 (proj2 (@UserInfo_error_causes Reference.collaborators
                  Scenario.okta (Reference.always (HttpErr "timeout"))
                  (Reference.token_with (IString Scenario.idTokenNobody)) no_effects)))).
  exists (OktaClaims.mk "7" "" "" "Nobody"). split.
  - vm_compute. reflexivity.
  - split; reflexivity.
Defined.

(** X4, witness: a token whose [id_token] entry is a boolean. *)
Lemma UserInfo_failure_has_no_effects_witness :
  (Scenario.Resolve Scenario.okta
     (Reference.always (HttpOk (mkResp Scenario.userinfoBody)))
     (Reference.token_with (IBool true)) no_effects).2 = no_effects.
Proof.
  apply (@UserInfo_failure_has_no_effects Reference.collaborators).
  vm_compute. reflexivity.
Defined.

(** X5, witness: a struct that already holds groups, and a request that
    times out. *)
Lemma extractAPI_transport_error_witness :
  Scenario.Fetch Scenario.okta
    (OktaUserInfoJson.mk "" "" "" "" "" "" ∅ ["ops"] Scenario.htmlBody)
    (Reference.always (HttpErr "timeout")) no_effects
  = ((OktaUserInfoJson.mk "" "" "" "" "" "" ∅ ["ops"] Scenario.htmlBody, false),
     mkEffects [SocialOkta.apiUrl Scenario.okta]
       [mkLog LvlDebug "Error getting user info response"]).
Proof.
  apply (@extractAPI_transport_error Reference.collaborators Scenario.okta
           (OktaUserInfoJson.mk "" "" "" "" "" "" ∅ ["ops"] Scenario.htmlBody)
           (Reference.always (HttpErr "timeout")) no_effects "timeout").
  reflexivity.
Defined.

(** X6, witness: the HTML error page is logged at error level. *)
Lemma extractAPI_logs_one_line_witness :
  ∃ line,
    logged (Scenario.Fetch Scenario.okta OktaUserInfoJson.zero
              (Reference.always (HttpOk (mkResp Scenario.htmlBody))) no_effects).2
      = [line]
    ∧ lvl line = LvlError.
Proof.
  destruct (@extractAPI_logs_one_line Reference.collaborators Scenario.okta
              OktaUserInfoJson.zero
              (Reference.always (HttpOk (mkResp Scenario.htmlBody))) no_effects)
    as [line [Heffects [Hlevel _]]].
  exists line. split.
  - unfold Scenario.Fetch. rewrite Heffects. reflexivity.
  - apply Hlevel. exists (mkResp Scenario.htmlBody). split.
    + reflexivity.
    + vm_compute. reflexivity.
Defined.

(** X7, witness: two lines for the resolution of [idTokenAB] without a
    role path. *)
Lemma UserInfo_log_lines_witness :
  ∃ lines,
    logged (Scenario.Resolve
              (SocialOkta.mk (SocialOkta.apiUrl Scenario.okta) [] [] true "")
              (Reference.always (HttpOk (mkResp Scenario.userinfoBody)))
              (Reference.token_with (IString Scenario.idTokenAB)) no_effects).2
      = lines
    ∧ length lines = 2.
Proof.
  destruct (@UserInfo_log_lines Reference.collaborators
              (SocialOkta.mk (SocialOkta.apiUrl Scenario.okta) [] [] true "")
              (Reference.always (HttpOk (mkResp Scenario.userinfoBody)))
              (Reference.token_with (IString Scenario.idTokenAB)) no_effects)
    as [lines [Hlines [Hlength _]]].
  - reflexivity.
  - exists lines. split.
    + exact Hlines.
    + rewrite Hlength. vm_compute. reflexivity.
Defined.

(** X8, witness: the same endpoint and path, with an allow-list for another
    domain and signup switched off. *)
Lemma UserInfo_ignores_access_policy_witness :
  Scenario.Resolve Scenario.okta
    (Reference.always (HttpOk (mkResp Scenario.userinfoBody)))
    (Reference.token_with (IString Scenario.idTokenAB)) no_effects
  = Scenario.Resolve
      (SocialOkta.mk (SocialOkta.apiUrl Scenario.okta) ["corp.com"] ["admins"] false
         (SocialOkta.roleAttributePath Scenario.okta))
      (Reference.always (HttpOk (mkResp Scenario.userinfoBody)))
      (Reference.token_with (IString Scenario.idTokenAB)) no_effects.
Proof.
  apply (@UserInfo_ignores_access_policy Reference.collaborators).
  - reflexivity.
  - reflexivity.
Defined.

(** X9, witness: another access token and one more entry. *)
Lemma UserInfo_reads_id_token_only_witness :
  Scenario.Resolve Scenario.okta
    (Reference.always (HttpOk (mkResp Scenario.userinfoBody)))
    (Reference.token_with (IString Scenario.idTokenAB)) no_effects
  = Scenario.Resolve Scenario.okta
      (Reference.always (HttpOk (mkResp Scenario.userinfoBody)))
      (Token.mk "another"
         (<["scope" := IString "openid"]> {[ "id_token" := IString Scenario.idTokenAB ]}))
      no_effects.
Proof.
  apply (@UserInfo_reads_id_token_only Reference.collaborators).
  vm_compute. reflexivity.
Defined.

(** X10, witness: an endpoint with one answer for every request, asked
    afresh and asked after two earlier requests. *)
Lemma UserInfo_stateless_endpoint_witness :
  (Scenario.Resolve Scenario.okta
     (Reference.always (HttpOk (mkResp Scenario.userinfoBody)))
     (Reference.token_with (IString Scenario.idTokenAB)) no_effects).1
  = (Scenario.Resolve Scenario.okta
       (Reference.always (HttpOk (mkResp Scenario.userinfoBody)))
       (Reference.token_with (IString Scenario.idTokenAB))
       (mkEffects ["https://example.okta.com/a"; "https://example.okta.com/b"] [])).1.
Proof.
  apply (@UserInfo_stateless_endpoint Reference.collaborators).
  intros sent sent' url. reflexivity.
Defined.

(** X11, witness: the role of the scenario, found in the response bytes. *)
Lemma UserInfo_role_from_response_bytes_witness :
  ∃ u,
    (Scenario.Resolve Scenario.okta
       (Reference.always (HttpOk (mkResp Scenario.userinfoBody)))
       (Reference.token_with (IString Scenario.idTokenAB)) no_effects).1 = Ok u
    ∧ BasicUserInfo.Role u = "editor".
Proof.
  destruct (@UserInfo_role_from_response_bytes Reference.collaborators Scenario.okta
              (Reference.always (HttpOk (mkResp Scenario.userinfoBody)))
              (Reference.token_with (IString Scenario.idTokenAB)) no_effects
              Scenario.claimsAB (mkResp Scenario.userinfoBody))
    as [u [Hrun Hrole]].
  - vm_compute. reflexivity.
  - vm_compute. discriminate.
  - reflexivity.
  - vm_compute. reflexivity.
  - exists u. split; [exact Hrun|]. rewrite Hrole. vm_compute. reflexivity.
Defined.

(** X12, witness: no groups when the request times out. *)
Lemma GetGroups_one_fetch_witness :
  (@GetGroups Reference.collaborators Scenario.okta
     (Reference.always (HttpErr "timeout")) no_effects).1 = [].
Proof.
  apply (proj2 (proj2 (proj2 (@GetGroups_one_fetch Reference.collaborators
                  Scenario.okta (Reference.always (HttpErr "timeout")) no_effects)))).
  exists "timeout". reflexivity.
Defined.

(** * Properties of the search results *)

Section SearchResultsFacts.
Context {Item : Type} (item_id : Item → Z).

Import SearchResults.

Local Abbreviation section_element := (SearchResults.section_element item_id).
Local Abbreviation render := (SearchResults.SearchResults item_id).

(** ** Shared lemmas *)

Lemma shown_items_of_items (props : Props.t Item) (items : list Item) :
  concat (map shown_items
            (map (λ item, SearchResultsItem (item_id item) item
                            (Props.editable props) (Props.onToggleSelection props)
                            (Props.onTagSelected props))
               items))
  = map item_id items.
Proof.
  induction items as [|item items IH]; [reflexivity|].
  simpl. rewrite IH. reflexivity.
Qed.

Lemma click_handlers_of_items (props : Props.t Item) (items : list Item) :
  concat (map click_handlers
            (map (λ item, SearchResultsItem (item_id item) item
                            (Props.editable props) (Props.onToggleSelection props)
                            (Props.onTagSelected props))
               items))
  = [].
Proof. induction items as [|item items IH]; [reflexivity | exact IH]. Qed.

Lemma links_of_items (props : Props.t Item) (items : list Item) :
  concat (map links
            (map (λ item, SearchResultsItem (item_id item) item
                            (Props.editable props) (Props.onToggleSelection props)
                            (Props.onTagSelected props))
               items))
  = [].
Proof. induction items as [|item items IH]; [reflexivity | exact IH]. Qed.

Lemma shown_items_section props section :
  shown_items (section_element props section) =
    if truthy (DashboardSection.expanded section)
    then map item_id (DashboardSection.items section) else [].
Proof.
  unfold SearchResults.section_element. simpl.
  assert (∀ header : Element,
            (∃ cs, header = Div None "search-section__header" None []
                 ∨ (header = Div None
                      (cx "search-section__header pointer" (DashboardSection.checked section))
                      (Some (CallToggleFolderExpand section)) cs
                    ∧ concat (map shown_items cs) = [])) →
            shown_items header = []) as Hheader.
  { intros header [cs [->|[-> Hcs]]]; simpl; [reflexivity | exact Hcs]. }
  rewrite Hheader.
  - simpl. destruct (truthy (DashboardSection.expanded section)); simpl;
      [|reflexivity].
    rewrite app_nil_r. apply shown_items_of_items.
  - destruct (truthy (DashboardSection.hideHeader section)); simpl.
    + exists []. left. reflexivity.
    + eexists. right. split; [reflexivity|].
      destruct (truthy_string (DashboardSection.url section)); reflexivity.
Qed.

Lemma click_handlers_section props section :
  click_handlers (section_element props section) =
    if truthy (DashboardSection.hideHeader section) then []
    else [CallToggleFolderExpand section; CallOnToggleSelection section].
Proof.
  unfold SearchResults.section_element. simpl.
  destruct (truthy (DashboardSection.hideHeader section)); simpl.
  - destruct (truthy (DashboardSection.expanded section)); simpl; [|reflexivity].
    rewrite app_nil_r. apply click_handlers_of_items.
  - destruct (truthy_string (DashboardSection.url section)); simpl;
      destruct (truthy (DashboardSection.expanded section)); simpl;
      rewrite ?app_nil_r, ?click_handlers_of_items; reflexivity.
Qed.

Lemma links_section props section :
  links (section_element props section) =
    if negb (truthy (DashboardSection.hideHeader section))
       && truthy_string (DashboardSection.url section)
    then [default "" (DashboardSection.url section)] else [].
Proof.
  unfold SearchResults.section_element. simpl.
  destruct (truthy (DashboardSection.hideHeader section)); simpl.
  - destruct (truthy (DashboardSection.expanded section)); simpl; [|reflexivity].
    rewrite app_nil_r. apply links_of_items.
  - destruct (truthy_string (DashboardSection.url section)); simpl;
      destruct (truthy (DashboardSection.expanded section)); simpl;
      rewrite ?app_nil_r, ?links_of_items; reflexivity.
Qed.

Lemma render_sections props r rs :
  Props.results props = Some (r :: rs) →
  render props = Fragment (map (section_element props) (r :: rs)).
Proof. intros Hresults. unfold SearchResults.SearchResults. rewrite Hresults. reflexivity. Qed.

Lemma render_empty props :
  Props.results props = None ∨ Props.results props = Some [] →
  render props = Div None "search-results" None [Em "muted" "No dashboards found."].
Proof.
  unfold SearchResults.SearchResults. intros [->| ->]; reflexivity.
Qed.

(** What a tree of sections shows is what its sections show, one after the
    other. *)
Lemma observe_sections {A : Type} (observe : Element → list A)
    (per_section : DashboardSection.t Item → list A) props :
  (∀ section, observe (section_element props section) = per_section section) →
  ∀ rs, concat (map observe (map (section_element props) rs))
        = flat_map per_section rs.
Proof.
  intros Hone rs. induction rs as [|r rs IH]; [reflexivity|].
  simpl. rewrite Hone, IH. reflexivity.
Qed.

(** ** The claims about the component *)

(** X13. The component shows the message that no dashboards were found,
    and nothing else, exactly when there are no results: when [results] is
    undefined or empty. *)
Theorem SearchResults_empty_state props :
  (Props.results props = None ∨ Props.results props = Some []) ↔
  render props = Div None "search-results" None [Em "muted" "No dashboards found."].
Proof.
  split; [apply render_empty|].
  destruct (Props.results props) as [[|r rs]|] eqn:Hresults;
    [right; reflexivity | | left; reflexivity].
  rewrite (render_sections props r rs Hresults). discriminate.
Qed.

(** X14. With results, the component returns one element per section, in
    the order of the sections, each keyed by the id of its section. *)
Theorem SearchResults_one_element_per_section props rs :
  Props.results props = Some rs →
  rs ≠ [] →
  ∃ children,
    render props = Fragment children
    ∧ length children = length rs
    ∧ map key children = map (λ section, Some (DashboardSection.id section)) rs.
Proof.
  intros Hresults Hsome. destruct rs as [|r rs]; [contradiction|].
  exists (map (section_element props) (r :: rs)).
  split; [apply render_sections; exact Hresults|].
  split; [apply length_map|].
  rewrite map_map. reflexivity.
Qed.


Lemma item_props_of_items (props : Props.t Item) (items : list Item) :
  concat (map item_props
            (map (λ item, SearchResultsItem (item_id item) item
                            (Props.editable props) (Props.onToggleSelection props)
                            (Props.onTagSelected props))
               items))
  = map (λ item, (item_id item, Props.editable props,
                  Props.onToggleSelection props, Props.onTagSelected props)) items.
Proof.
  induction items as [|item items IH]; [reflexivity|].
  simpl. rewrite IH. reflexivity.
Qed.

Lemma item_props_section props section :
  item_props (section_element props section) =
    if truthy (DashboardSection.expanded section)
    then map (λ item, (item_id item, Props.editable props,
                       Props.onToggleSelection props, Props.onTagSelected props))
           (DashboardSection.items section)
    else [].
Proof.
  unfold SearchResults.section_element. simpl.
  destruct (truthy (DashboardSection.hideHeader section)); simpl.
  - destruct (truthy (DashboardSection.expanded section)); simpl; [|reflexivity].
    rewrite app_nil_r. apply item_props_of_items.
  - destruct (truthy_string (DashboardSection.url section)); simpl;
      destruct (truthy (DashboardSection.expanded section)); simpl;
      rewrite ?app_nil_r, ?item_props_of_items; reflexivity.
Qed.

Lemma map_flat_map {A B C : Type} (f : B → C) (g : A → list B) (l : list A) :
  map f (flat_map g l) = flat_map (λ x, map f (g x)) l.
Proof.
  induction l as [|x l IH]; [reflexivity|].
  simpl. rewrite map_app, IH. reflexivity.
Qed.

(** X16. The [onClick] handlers that the component installs are, for every
    section with a header, one that toggles that very section and one that
    toggles the selection of that very section, and no others; the header
    of a section whose header is hidden gets none. The items are not given
    an [onClick]: every item on show, also one under a hidden header, is
    handed [editable], [onToggleSelection] and [onTagSelected] of the props
    as they are. *)
Theorem SearchResults_click_handlers props :
  click_handlers (render props) =
    flat_map (λ section,
                if truthy (DashboardSection.hideHeader section) then []
                else [CallToggleFolderExpand section; CallOnToggleSelection section])
             (default [] (Props.results props))
  ∧ item_props (render props) =
      map (λ k, (k, Props.editable props,
                 Props.onToggleSelection props, Props.onTagSelected props))
          (shown_items (render props)).
Proof.
  destruct (Props.results props) as [[|r rs]|] eqn:Hresults;
    try (rewrite render_empty by auto; split; reflexivity).
  rewrite (render_sections props r rs Hresults). split.
  - apply (observe_sections click_handlers). apply click_handlers_section.
  - change (item_props (Fragment (map (section_element props) (r :: rs))))
      with (concat (map item_props (map (section_element props) (r :: rs)))).
    change (shown_items (Fragment (map (section_element props) (r :: rs))))
      with (concat (map shown_items (map (section_element props) (r :: rs)))).
    rewrite (observe_sections item_props _ props (item_props_section props)).
    rewrite (observe_sections shown_items _ props (shown_items_section props)).
    rewrite map_flat_map. apply flat_map_ext. intros section.
    destruct (truthy (DashboardSection.expanded section)); [|reflexivity].
    rewrite map_map. reflexivity.
Qed.

(** X17. The links of the tree are the links to the sections that have a
    header and a non-empty url, in the order of the sections; a section
    without url, or with an empty one, gets no link. *)
Theorem SearchResults_links props :
  links (render props) =
    flat_map (λ section,
                if negb (truthy (DashboardSection.hideHeader section))
                   && truthy_string (DashboardSection.url section)
                then [default "" (DashboardSection.url section)] else [])
             (default [] (Props.results props)).
Proof.
  destruct (Props.results props) as [[|r rs]|] eqn:Hresults;
    try (rewrite render_empty by auto; reflexivity).
  rewrite (render_sections props r rs Hresults).
  apply (observe_sections links). apply links_section.
Qed.

(** X18. A run of [toggleFolderExpand] on a section without [toggle] calls
    nothing. On a section with [toggle] it calls [toggle] once;
    [onFolderExpanding] is called, before [toggle], exactly when the section
    is not expanded and the prop is a function; [onSelectionChanged] is
    called, after [toggle], exactly when the promise of [toggle] is
    fulfilled and the prop is a function. *)
Theorem toggleFolderExpand_events (props : Props.t Item)
    (section : DashboardSection.t Item) :
  let events := toggleFolderExpand props section in
  (DashboardSection.toggle section = None → events = [])
  ∧ (∀ promise, DashboardSection.toggle section = Some promise →
       ∃ before after,
         events = before ++ Toggle (DashboardSection.id section) :: after
         ∧ Forall (eq FolderExpanding) before
         ∧ Forall (eq SelectionChanged) after)
  ∧ (FolderExpanding ∈ events ↔
     DashboardSection.toggle section ≠ None
     ∧ truthy (DashboardSection.expanded section) = false
     ∧ is_function (Props.onFolderExpanding props) = true)
  ∧ (SelectionChanged ∈ events ↔
     DashboardSection.toggle section = Some Fulfilled
     ∧ is_function (Props.onSelectionChanged props) = true).
Proof.
  unfold toggleFolderExpand. simpl.
  destruct (DashboardSection.toggle section) as [promise|].
  - split; [discriminate|]. split.
    + intros promise' _. eexists _, _. split; [reflexivity|]. split.
      * destruct (_ && _); repeat constructor.
      * destruct promise; try constructor.
        destruct (is_function (Props.onSelectionChanged props)); repeat constructor.
    + destruct (truthy (DashboardSection.expanded section));
        destruct (is_function (Props.onFolderExpanding props));
        destruct promise;
        destruct (is_function (Props.onSelectionChanged props)); simpl;
        (split; split;
         [ rewrite ?elem_of_cons, elem_of_nil; intros Hin;
           repeat (destruct Hin as [Hin|Hin]; try discriminate);
           try contradiction; repeat split; discriminate
         | intros (? & ? & ?); try discriminate; try contradiction;
           rewrite ?elem_of_cons; auto
         | rewrite ?elem_of_cons, elem_of_nil; intros Hin;
           repeat (destruct Hin as [Hin|Hin]; try discriminate);
           try contradiction; repeat split; reflexivity
         | intros (? & ?); try discriminate;
           rewrite ?elem_of_cons; auto ]).
  - split; [reflexivity|]. split; [discriminate|].
    split; split; try (intros Hin; apply elem_of_nil in Hin; contradiction).
    + intros (Hno & _). contradiction.
    + intros (? & _). discriminate.
Qed.

End SearchResultsFacts.

Example SearchScenario_shown_items :
  SearchResults.shown_items (SearchScenario.render SearchScenario.props)
  = [11; 12; 12]%Z.
Proof. reflexivity. Qed.

Example SearchScenario_links :
  SearchResults.links (SearchScenario.render SearchScenario.props)
  = ["/dashboards/f/team"].
Proof. reflexivity. Qed.

Example SearchScenario_collapse_general :
  SearchResults.toggleFolderExpand SearchScenario.props SearchScenario.general
  = [SearchResults.Toggle 0; SearchResults.SelectionChanged].
Proof. reflexivity. Qed.

(** X13, witness: undefined results. *)
Lemma SearchResults_empty_state_witness :
  SearchScenario.render SearchScenario.no_results
  = SearchResults.Div None "search-results" None
      [SearchResults.Em "muted" "No dashboards found."].
Proof.
  apply (proj1 (SearchResults_empty_state (λ item, item) SearchScenario.no_results)).
  left. reflexivity.
Defined.

(** X14, witness: three sections, three elements. *)
Lemma SearchResults_one_element_per_section_witness :
  ∃ children,
    SearchScenario.render SearchScenario.props = SearchResults.Fragment children
    ∧ length children = 3
    ∧ map SearchResults.key children = [Some 0; Some 7; Some (-1)]%Z.
Proof.
  apply (SearchResults_one_element_per_section (λ item, item) SearchScenario.props
           [SearchScenario.general; SearchScenario.team; SearchScenario.recent]).
  - reflexivity.
  - discriminate.
Defined.

(** X18, witness: expanding the collapsed section announces it; the
    section without [toggle] calls nothing. *)
Lemma toggleFolderExpand_events_witness :
  SearchResults.FolderExpanding
    ∈ SearchResults.toggleFolderExpand SearchScenario.props SearchScenario.team
  ∧ SearchResults.toggleFolderExpand SearchScenario.props SearchScenario.recent = [].
Proof.
  split.
  - apply (proj2 (proj1 (proj2 (proj2 (toggleFolderExpand_events
             SearchScenario.props SearchScenario.team))))).
    repeat split. discriminate.
  - apply (proj1 (toggleFolderExpand_events SearchScenario.props SearchScenario.recent)).
    reflexivity.
Defined.

(** X19, witness: the first request times out, the second is answered with
    a body that fails decoding after its groups were stored. *)
Lemma UserInfo_groups_from_second_response_witness :
  ∃ u,
    (Scenario.Resolve Scenario.okta
       (Reference.scripted [HttpErr "timeout"; HttpOk (mkResp Scenario.mistypedBody)])
       (Reference.token_with (IString Scenario.idTokenAB)) no_effects).1 = Ok u
    ∧ BasicUserInfo.Groups u = ["eng"].
Proof.
  destruct (@UserInfo_groups_from_second_response Reference.collaborators Scenario.okta
              (Reference.scripted [HttpErr "timeout"; HttpOk (mkResp Scenario.mistypedBody)])
              (Reference.token_with (IString Scenario.idTokenAB)) no_effects
              Scenario.claimsAB (mkResp Scenario.mistypedBody))
    as [u [Hrun Hgroups]].
  - vm_compute. reflexivity.
  - vm_compute. discriminate.
  - reflexivity.
  - exists u. split; [exact Hrun|]. rewrite Hgroups. vm_compute. reflexivity.
Defined.

Example SearchScenario_hidden_header :
  SearchResults.click_handlers
    (SearchResults.section_element (λ item, item) SearchScenario.props
       SearchScenario.recent) = []
  ∧ SearchResults.item_props
      (SearchResults.section_element (λ item, item) SearchScenario.props
         SearchScenario.recent)
    = [(12%Z, true, SearchResults.JsFunction, SearchResults.JsUndefined)].
Proof. split; reflexivity. Qed.

(** C9, counterexample: the [id_token] entry is there and holds null, which
    is not a string; [UserInfo] does not panic, it returns the no-id-token
    error. *)
Lemma UserInfo_null_id_token_is_refused :
  let token := Token.mk "access" {[ "id_token" := INil ]} in
  let r := Scenario.Resolve Scenario.okta
             (Reference.always (HttpOk (mkResp Scenario.userinfoBody)))
             token no_effects in
  Token.raw token !! "id_token" = Some INil
  ∧ is_string INil = false
  ∧ r = (Err ErrNoIdToken, no_effects)
  ∧ ¬ (∃ reason, r.1 = Panic reason).
Proof.
  vm_compute. repeat split. intros [reason Hpanic]. discriminate Hpanic.
Qed.

(** C7 (as amended). A returned identity is put together from the claims
    of the token and two fetched documents: [Id] is the subject claim,
    [Name] the name claim, [Email] and [Login] both the derived email,
    [Role] the result of the attribute-path extraction on the document
    fetched by [UserInfo] itself, and [Groups] the groups, when there are
    any and the empty sequence otherwise, of the document fetched by the
    second, separate fetch inside [GetGroups]. When the answers of the
    endpoint do not depend on earlier requests, these are the groups of the
    very document the role was extracted from. For the token with claims
    [sub = 123], [email = a@b.com], [name = A B], an endpoint that answers
    both requests with [{"groups":["eng"], "attrs":{"role":"editor"}}] and
    the role path [attrs.role], the identity is exactly [identityAB]. *)
Theorem UserInfo_assembles_identity :
  (∀ (C : Collaborators) s client token e u,
     (UserInfo s client token e).1 = Ok u →
     ∃ claims, token_claims token = Some claims ∧
       let data := (extractAPI s OktaUserInfoJson.zero client e) in
       let groupsData := (extractAPI s OktaUserInfoJson.zero client data.2).1.1 in
       BasicUserInfo.Id u = OktaClaims.ID claims
       ∧ BasicUserInfo.Name u = OktaClaims.Name claims
       ∧ BasicUserInfo.Email u = extractEmail claims
       ∧ BasicUserInfo.Login u = BasicUserInfo.Email u
       ∧ BasicUserInfo.Role u = extractRole s data.1.1
       ∧ BasicUserInfo.Groups u =
           (if Nat.ltb 0 (length (OktaUserInfoJson.Groups groupsData))
            then OktaUserInfoJson.Groups groupsData else [])
       ∧ (stateless client →
          BasicUserInfo.Groups u =
            (if Nat.ltb 0 (length (OktaUserInfoJson.Groups data.1.1))
             then OktaUserInfoJson.Groups data.1.1 else [])))
  ∧ (Scenario.Resolve Scenario.okta
       (Reference.always (HttpOk (mkResp Scenario.userinfoBody)))
       (Reference.token_with (IString Scenario.idTokenAB)) no_effects).1
    = Ok (BasicUserInfo.mk "123" "A B" "a@b.com" "a@b.com" "editor" ["eng"]).
Proof.
  split; [|vm_compute; reflexivity].
  intros C s client token e u Hok.
  destruct (UserInfo_Ok_inv s client token e u Hok) as [claims [Hclaims Hemail]].
  exists claims. split; [exact Hclaims|].
  rewrite (UserInfo_resolved s client token e claims Hclaims Hemail) in Hok.
  simpl in *. injection Hok as <-. simpl.
  repeat apply conj; try reflexivity.
  - destruct (OktaUserInfoJson.Groups _); reflexivity.
  - intros Hstateless. rewrite !extractAPI_value.
    rewrite (fetched_stateless s _ client
               (extractAPI s OktaUserInfoJson.zero client e).2 e Hstateless).
    destruct (OktaUserInfoJson.Groups _); reflexivity.
Qed.

(** C7, counterexample: the endpoint answers the first request with the
    groups [eng] and the role [editor], and the second with the groups
    [ops]. The role is extracted from the first document, and the groups of
    the identity are not the groups of that document. *)
Lemma UserInfo_groups_not_of_role_document :
  let client := Reference.scripted
                  [HttpOk (mkResp Scenario.userinfoBody);
                   HttpOk (mkResp (Reference.json_bytes "{'groups':['ops']}"))] in
  let data := (Scenario.Fetch Scenario.okta OktaUserInfoJson.zero client no_effects).1.1 in
  let r := Scenario.Resolve Scenario.okta client
             (Reference.token_with (IString Scenario.idTokenAB)) no_effects in
  OktaUserInfoJson.Groups data = ["eng"]
  ∧ @extractRole Reference.collaborators Scenario.okta data = "editor"
  ∧ r.1 = Ok (BasicUserInfo.mk "123" "A B" "a@b.com" "a@b.com" "editor" ["ops"])
  ∧ ¬ (∃ u, r.1 = Ok u
         ∧ BasicUserInfo.Groups u =
             (if Nat.ltb 0 (length (OktaUserInfoJson.Groups data))
              then OktaUserInfoJson.Groups data else [])).
Proof.
  vm_compute. repeat split.
  intros [u [Hu Hgroups]]. injection Hu as <-. discriminate Hgroups.
Qed.

(** C7, witness: the general part at the scenario, where the endpoint has
    one answer for every request. *)
Lemma UserInfo_assembles_identity_witness :
  ∃ claims,
    Scenario.Claims (Reference.token_with (IString Scenario.idTokenAB)) = Some claims
    ∧ BasicUserInfo.Id Scenario.identityAB = OktaClaims.ID claims
    ∧ BasicUserInfo.Login Scenario.identityAB = extractEmail claims
    ∧ BasicUserInfo.Groups Scenario.identityAB = ["eng"].
Proof.
  destruct (proj1 UserInfo_assembles_identity Reference.collaborators Scenario.okta
              (Reference.always (HttpOk (mkResp Scenario.userinfoBody)))
              (Reference.token_with (IString Scenario.idTokenAB)) no_effects
              Scenario.identityAB)
    as [claims [Hclaims [Hid [_ [Hemail [Hlogin [_ [_ Hsame]]]]]]]].
  - vm_compute. reflexivity.
  - exists claims. split; [exact Hclaims|]. split; [exact Hid|].
    split; [rewrite Hlogin; exact Hemail|].
    rewrite Hsame.
    + vm_compute. reflexivity.
    + intros sent sent' url. reflexivity.
Defined.
